(** * etomon-location: the resolution cascade of [GeoResolver]

    A shallow embedding of [src/api/server/GeoResolver.ts] and of the part of
    [src/api/common/EtomonLocation.ts] it uses.

    Conventions of the embedding.
    - The TypeScript interfaces [EtomonLocation] and [EtomonLocationQuery] are
      one record with optional fields; [None] stands for a field that is
      absent or [undefined].  A value of type [option EtomonLocation] is an
      object reference or [null].
    - JS numbers (coordinates, distances, timestamps) are modelled by [Z]:
      no property below depends on floating point arithmetic.
    - A function that mutates its argument and returns it (the source does so
      in [locationFromQuery], [getTimezone], [getCountryInfo] and
      [resolveLocationByIpAddress]) returns the state of that same object
      after the call.
    - Async generators are finite trees of requests and [Yield]s ([Gen]); a
      consumer decides how far a tree is run. *)

From Stdlib Require Import ZArith NArith Lia String Ascii List DecimalString Sorted Permutation.
From stdpp Require Import base strings gmap list option.

Open Scope string_scope.
Open Scope Z_scope.

(** ** Data model *)

(** [GeoJSONCoordinates = [longitude, latitude]]. *)
Definition GeoJSONCoordinates : Type := (Z * Z)%type.

(** The [location] sub-object: a [GeoJSONLocation] (coordinates and type) or a
    [GeoJSONQuery] (coordinates and the two radius bounds). *)
Record GeoJSON := mkGeoJSON {
  coordinates : option GeoJSONCoordinates;
  maxDistance : option Z;
  minDistance : option Z;
  geotype : option string }.

#[global] Instance GeoJSON_eq_dec : EqDecision GeoJSON.
Proof. solve_decision. Defined.

(** [EtomonLocationQueryOrResult]. *)
Record EtomonLocation := mkLocation {
  id : option string;
  _id : option string;
  locality : option string;
  administrativeLevel1 : option string;
  administrativeLevel2 : option string;
  country : option string;
  fromCache : option bool;
  location : option GeoJSON;
  region : option string;
  address : option string;
  ipAddress : option string;
  resolveIpWithGeo : option bool;
  timezone : option string;
  languages : option (list (option string));
  phoneCode : option string;
  countryName : option string;
  safeLabel : option string }.

(** The object literal [{}]. *)
Definition emptyLocation : EtomonLocation :=
  mkLocation None None None None None None None None None None None None None None None None None.

(** Field assignments [result.f = v]. *)
Definition set_id (v : option string) (r : EtomonLocation) : EtomonLocation :=
  mkLocation v r.(_id) r.(locality) r.(administrativeLevel1) r.(administrativeLevel2) r.(country) r.(fromCache) r.(location) r.(region) r.(address) r.(ipAddress) r.(resolveIpWithGeo) r.(timezone) r.(languages) r.(phoneCode) r.(countryName) r.(safeLabel).
Definition set__id (v : option string) (r : EtomonLocation) : EtomonLocation :=
  mkLocation r.(id) v r.(locality) r.(administrativeLevel1) r.(administrativeLevel2) r.(country) r.(fromCache) r.(location) r.(region) r.(address) r.(ipAddress) r.(resolveIpWithGeo) r.(timezone) r.(languages) r.(phoneCode) r.(countryName) r.(safeLabel).
Definition set_locality (v : option string) (r : EtomonLocation) : EtomonLocation :=
  mkLocation r.(id) r.(_id) v r.(administrativeLevel1) r.(administrativeLevel2) r.(country) r.(fromCache) r.(location) r.(region) r.(address) r.(ipAddress) r.(resolveIpWithGeo) r.(timezone) r.(languages) r.(phoneCode) r.(countryName) r.(safeLabel).
Definition set_administrativeLevel1 (v : option string) (r : EtomonLocation) : EtomonLocation :=
  mkLocation r.(id) r.(_id) r.(locality) v r.(administrativeLevel2) r.(country) r.(fromCache) r.(location) r.(region) r.(address) r.(ipAddress) r.(resolveIpWithGeo) r.(timezone) r.(languages) r.(phoneCode) r.(countryName) r.(safeLabel).
Definition set_administrativeLevel2 (v : option string) (r : EtomonLocation) : EtomonLocation :=
  mkLocation r.(id) r.(_id) r.(locality) r.(administrativeLevel1) v r.(country) r.(fromCache) r.(location) r.(region) r.(address) r.(ipAddress) r.(resolveIpWithGeo) r.(timezone) r.(languages) r.(phoneCode) r.(countryName) r.(safeLabel).
Definition set_country (v : option string) (r : EtomonLocation) : EtomonLocation :=
  mkLocation r.(id) r.(_id) r.(locality) r.(administrativeLevel1) r.(administrativeLevel2) v r.(fromCache) r.(location) r.(region) r.(address) r.(ipAddress) r.(resolveIpWithGeo) r.(timezone) r.(languages) r.(phoneCode) r.(countryName) r.(safeLabel).
Definition set_location (v : option GeoJSON) (r : EtomonLocation) : EtomonLocation :=
  mkLocation r.(id) r.(_id) r.(locality) r.(administrativeLevel1) r.(administrativeLevel2) r.(country) r.(fromCache) v r.(region) r.(address) r.(ipAddress) r.(resolveIpWithGeo) r.(timezone) r.(languages) r.(phoneCode) r.(countryName) r.(safeLabel).
Definition set_address (v : option string) (r : EtomonLocation) : EtomonLocation :=
  mkLocation r.(id) r.(_id) r.(locality) r.(administrativeLevel1) r.(administrativeLevel2) r.(country) r.(fromCache) r.(location) r.(region) v r.(ipAddress) r.(resolveIpWithGeo) r.(timezone) r.(languages) r.(phoneCode) r.(countryName) r.(safeLabel).
Definition set_timezone (v : option string) (r : EtomonLocation) : EtomonLocation :=
  mkLocation r.(id) r.(_id) r.(locality) r.(administrativeLevel1) r.(administrativeLevel2) r.(country) r.(fromCache) r.(location) r.(region) r.(address) r.(ipAddress) r.(resolveIpWithGeo) v r.(languages) r.(phoneCode) r.(countryName) r.(safeLabel).
Definition set_languages (v : option (list (option string))) (r : EtomonLocation) : EtomonLocation :=
  mkLocation r.(id) r.(_id) r.(locality) r.(administrativeLevel1) r.(administrativeLevel2) r.(country) r.(fromCache) r.(location) r.(region) r.(address) r.(ipAddress) r.(resolveIpWithGeo) r.(timezone) v r.(phoneCode) r.(countryName) r.(safeLabel).
Definition set_phoneCode (v : option string) (r : EtomonLocation) : EtomonLocation :=
  mkLocation r.(id) r.(_id) r.(locality) r.(administrativeLevel1) r.(administrativeLevel2) r.(country) r.(fromCache) r.(location) r.(region) r.(address) r.(ipAddress) r.(resolveIpWithGeo) r.(timezone) r.(languages) v r.(countryName) r.(safeLabel).
Definition set_countryName (v : option string) (r : EtomonLocation) : EtomonLocation :=
  mkLocation r.(id) r.(_id) r.(locality) r.(administrativeLevel1) r.(administrativeLevel2) r.(country) r.(fromCache) r.(location) r.(region) r.(address) r.(ipAddress) r.(resolveIpWithGeo) r.(timezone) r.(languages) r.(phoneCode) v r.(safeLabel).
Definition set_ipAddress (v : option string) (r : EtomonLocation) : EtomonLocation :=
  mkLocation r.(id) r.(_id) r.(locality) r.(administrativeLevel1) r.(administrativeLevel2) r.(country) r.(fromCache) r.(location) r.(region) r.(address) v r.(resolveIpWithGeo) r.(timezone) r.(languages) r.(phoneCode) r.(countryName) r.(safeLabel).

(** Errors thrown by the resolver. *)
Inductive Err :=
| TypeError (msg : string)
| ErrorMessage (msg : string)
| FetchError
| GeoIpError
| LocationQueryError (query : option EtomonLocation) (cause : Err)
| CouldNotResolveLocationError (query : option EtomonLocation).

(** How a call of a synchronous function ends: it returns or it throws. *)
Inductive Completion (A : Type) :=
| Normal (a : A)
| Abrupt (e : Err).
Arguments Normal {A} a.
Arguments Abrupt {A} e.

(** ** JS operators on the field types *)

(** Truthiness of an optional string: [undefined] and [""] are falsy. *)
Definition truthy_str (v : option string) : bool :=
  match v with Some s => negb (String.eqb s "") | None => false end.

(** Truthiness of an optional number: [undefined] and [0] are falsy. *)
Definition truthy_num (v : option Z) : bool :=
  match v with Some z => negb (z =? 0) | None => false end.

(** [a || b] on optional strings. *)
Definition or_str (a b : option string) : option string :=
  if truthy_str a then a else b.

(** [String.prototype.toLowerCase], on the ASCII letters. *)
Definition lower_ascii (c : ascii) : ascii :=
  let n := nat_of_ascii c in
  if ((65 <=? n) && (n <=? 90))%nat then ascii_of_nat (n + 32) else c.

Fixpoint toLowerCase (s : string) : string :=
  match s with
  | EmptyString => EmptyString
  | String c s' => String (lower_ascii c) (toLowerCase s')
  end.

(** Template-literal printing of a number. *)
Definition string_of_Z (z : Z) : string := NilZero.string_of_int (Z.to_int z).

(** ** Static tables and the encoder

    The resolver imports [byIso] from [country-code-lookup], the tables
    [countryData] and [languageData] from [CountryData], and hashes and encodes
    with an [EncodeTools] instance ([hashObject], [encodeBuffer]).  They are
    the fields of [Externals], and every function that reads one takes it as
    an argument.  The hash reads the own properties of an object in their
    order. *)

(** A property of an object: its name and value, as a serializer meets it. *)
Inductive PropValue :=
| PStr (s : string)
| PBool (b : bool)
| PGeo (c : GeoJSONCoordinates) (maxD minD : Z).

Record CountryInfo := mkCountryInfo {
  cname : option string;
  clanguages : list string;
  cphone : option string }.

Record Externals := mkExternals {
  (** [byIso(code).internet], [None] when the country is not found *)
  byIso : string -> option string;
  countryData : string -> option CountryInfo;
  (** [languageData[code].name] *)
  languageData : string -> option string;
  (** the digest of an object, as a number *)
  hashObject : list (string * PropValue) -> N;
  (** [encodeBuffer(digest, base64).toString()] *)
  encodeBuffer : N -> string }.

(** ** Safe label ([EtomonLocation.ts]) *)

(** [LabelLocation]: [None] is the result [null]. The properties of the
    argument are read before the [location &&] guard is reached. *)
Definition LabelLocation (location : option EtomonLocation) : Completion (option string) :=
  match location with
  | None => Abrupt (TypeError "Cannot read properties of null (reading 'locality')")
  | Some l =>
    let parts :=
      omap (fun p => if truthy_str p then p else None)
           [ or_str l.(locality) l.(administrativeLevel2);
             l.(administrativeLevel1);
             l.(countryName) ] in
    if (0 <? length parts)%nat then Normal (Some (String.concat ", " parts))
    else Normal (if truthy_str l.(address) then l.(address) else None)
  end.

(** [LabelLocationSafe(location) = LabelLocation(location) || ""]. *)
Definition LabelLocationSafe (location : option EtomonLocation) : Completion string :=
  match LabelLocation location with
  | Normal r => Normal (match r with Some s => if String.eqb s "" then "" else s | None => "" end)
  | Abrupt e => Abrupt e
  end.

(** ** Canonicalizer *)

Section Canonicalizer.
Variable E : Externals.

(** [GeoResolver.queryFromLocation] (lines 318-347): [canonicalQuery] is the
    object built for an argument that is not [null]. *)
Definition canonicalQuery (l : EtomonLocation) : EtomonLocation :=
  let region0 :=
    match l.(region) with
    | Some r => Some r
    | None => match l.(country) with
              | Some c => if truthy_str (Some c) then E.(byIso) c else None
              | None => None
              end
    end in
  {| administrativeLevel1 := l.(administrativeLevel1);
     administrativeLevel2 := l.(administrativeLevel2);
     country := l.(country);
     locality := l.(locality);
     address := l.(address);
     ipAddress := l.(ipAddress);
     resolveIpWithGeo := Some (match l.(resolveIpWithGeo) with Some b => b | None => true end);
     location :=
       match l.(location) with
       | Some g =>
         match g.(coordinates) with
         | Some c =>
           Some {| coordinates := Some c;
                   maxDistance := Some (if truthy_num g.(maxDistance) then default 0 g.(maxDistance) else 0);
                   minDistance := Some (if truthy_num g.(minDistance) then default 0 g.(minDistance) else 0);
                   geotype := None |}
         | None => None
         end
       | None => None
       end;
     id := or_str l.(_id) l.(id);
     _id := or_str l.(_id) l.(id);
     region := if truthy_str region0 then option_map toLowerCase region0 else region0;
     fromCache := None; timezone := None; languages := None;
     phoneCode := None; countryName := None; safeLabel := None |}.

Definition queryFromLocation (input : option EtomonLocation) : option EtomonLocation :=
  match input with
  | None => None
  | Some l => Some (canonicalQuery l)
  end.

(** The keys of the object literal of [queryFromLocation] (lines 321-335),
    in the order they are written. *)
Definition canonical_keys : list string :=
  [ "administrativeLevel1"; "administrativeLevel2"; "country"; "locality"; "address";
    "ipAddress"; "resolveIpWithGeo"; "location"; "id"; "_id"; "region" ].

(** [query[k]] for a canonical query, [None] for [undefined]. *)
Definition prop_value (q : EtomonLocation) (k : string) : option PropValue :=
  if String.eqb k "administrativeLevel1" then option_map PStr q.(administrativeLevel1)
  else if String.eqb k "administrativeLevel2" then option_map PStr q.(administrativeLevel2)
  else if String.eqb k "country" then option_map PStr q.(country)
  else if String.eqb k "locality" then option_map PStr q.(locality)
  else if String.eqb k "address" then option_map PStr q.(address)
  else if String.eqb k "ipAddress" then option_map PStr q.(ipAddress)
  else if String.eqb k "resolveIpWithGeo" then option_map PBool q.(resolveIpWithGeo)
  else if String.eqb k "location" then
    g ← q.(location); c ← g.(coordinates);
    Some (PGeo c (default 0 g.(maxDistance)) (default 0 g.(minDistance)))
  else if String.eqb k "id" then option_map PStr q.(id)
  else if String.eqb k "_id" then option_map PStr q.(_id)
  else if String.eqb k "region" then option_map PStr q.(region)
  else None.

(** The own properties of the object [queryFromLocation] returns, as a
    serializer enumerates them: in the order of the literal, the
    [undefined]-valued ones deleted (lines 338-341). *)
Definition canonical_props (q : EtomonLocation) : list (string * PropValue) :=
  flat_map (fun k => match prop_value q k with Some v => [(k, v)] | None => [] end)
           canonical_keys.


(** [GeoResolver.cacheKey] (lines 743-746); the query [null] has no
    property. *)
Definition cacheKey (input : option EtomonLocation) : string :=
  E.(encodeBuffer) (E.(hashObject)
    (match queryFromLocation input with Some query => canonical_props query | None => [] end)).

(** [GeoResolver.locationFromQuery] (lines 236-257): the argument object is
    edited in place and returned; the result is its state after the call. *)
Definition locationFromQuery (result : option EtomonLocation) : Completion (option EtomonLocation) :=
  match result with
  | None => Normal None
  | Some r =>
    let id0 := r.(id) in
    let loc1 := option_map (fun g => mkGeoJSON g.(coordinates) None None g.(geotype)) r.(location) in
    let r1 := mkLocation r.(id) r.(_id) r.(locality) r.(administrativeLevel1) r.(administrativeLevel2)
                r.(country) None loc1 r.(region) r.(address) None None
                r.(timezone) r.(languages) r.(phoneCode) r.(countryName) r.(safeLabel) in
    match LabelLocationSafe (Some r1) with
    | Abrupt e => Abrupt (LocationQueryError (queryFromLocation (Some r1)) e)
    | Normal label =>
      let loc2 := option_map (fun g => mkGeoJSON g.(coordinates) g.(maxDistance) g.(minDistance) (Some "Point")) loc1 in
      Normal (Some (mkLocation id0 r1.(_id) r1.(locality) r1.(administrativeLevel1) r1.(administrativeLevel2)
                r1.(country) None loc2 r1.(region) r1.(address) None None
                r1.(timezone) r1.(languages) r1.(phoneCode) r1.(countryName) (Some label)))
    end
  end.

End Canonicalizer.

(** ** Provider response normalization ([processGoogleResponse]) *)

Record AddressComponent := mkComponent {
  types : list string;
  long_name : option string;
  short_name : option string }.

Record LatLng := mkLatLng { lat : option Z; lng : option Z }.

(** One element of [googleResponse.results]; [geometry] is
    [rawResult.geometry.location] when both objects are present. *)
Record RawResult := mkRawResult {
  geometry : option LatLng;
  formatted_address : option string;
  place_id : option string;
  address_components : option (list AddressComponent) }.

(** The JSON body of a provider response. *)
Record GoogleData := mkGoogleData {
  status : option string;
  error_message : option string;
  results : option (list RawResult);
  timeZoneId : option string }.

(** The keys of [adminLevelMap]: the results of [Number(...)]. *)
Inductive JsNumber :=
| NaN
| Num (n : N).

#[global] Instance JsNumber_eq_dec : EqDecision JsNumber.
Proof. solve_decision. Defined.

Definition digit_value (c : ascii) : option N :=
  let n := nat_of_ascii c in
  if ((48 <=? n) && (n <=? 57))%nat then Some (N.of_nat (n - 48)) else None.

Fixpoint digits_value (s : string) (acc : N) : option N :=
  match s with
  | EmptyString => Some acc
  | String c s' =>
    match digit_value c with
    | Some d => digits_value s' (acc * 10 + d)%N
    | None => None
    end
  end.

(** [Number(s)] on strings of decimal digits ([Number("")] is [0]); every
    other string is mapped to [NaN] (JS also reads signs, fractions,
    exponents, radix prefixes and surrounding white space). *)
Definition Number (s : string) : JsNumber :=
  match digits_value s 0%N with Some n => Num n | None => NaN end.

(** [String(x)] for a key. *)
Definition ToString (x : JsNumber) : string :=
  match x with
  | NaN => "NaN"
  | Num n => NilZero.string_of_uint (N.to_uint n)
  end.

(** [s.replace(pattern, replacement)] with a string pattern: the first
    occurrence only. *)
Definition replace (pattern replacement s : string) : string :=
  match index 0 pattern s with
  | Some i =>
    substring 0 i s ++ replacement ++
    substring (i + String.length pattern) (String.length s - i - String.length pattern) s
  | None => s
  end.

(** [types.includes(t)]. *)
Definition includes (t : string) (l : list string) : bool :=
  existsb (String.eqb t) l.

(** [Map<number, string>], in insertion order. *)
Definition AdminLevelMap : Type := list (JsNumber * option string).

Fixpoint map_set (k : JsNumber) (v : option string) (m : AdminLevelMap) : AdminLevelMap :=
  match m with
  | [] => [(k, v)]
  | (k', v') :: m' => if decide (k' = k) then (k, v) :: m' else (k', v') :: map_set k v m'
  end.

Fixpoint map_get (k : JsNumber) (m : AdminLevelMap) : option string :=
  match m with
  | [] => None
  | (k', v') :: m' => if decide (k' = k) then v' else map_get k m'
  end.

(** [Array.prototype.sort()] without a comparator: the elements are ordered
    by their string forms, compared code unit by code unit. *)
Fixpoint sort_insert (x : JsNumber) (l : list JsNumber) : list JsNumber :=
  match l with
  | [] => [x]
  | y :: l' => if String.ltb (ToString x) (ToString y) then x :: l else y :: sort_insert x l'
  end.

Definition sort (l : list JsNumber) : list JsNumber :=
  fold_left (fun acc x => sort_insert x acc) l [].

(** The body of the loop over [rawResult.address_components] (lines 176-197). *)
Definition walkComponent (st : EtomonLocation * AdminLevelMap) (component : AddressComponent)
  : EtomonLocation * AdminLevelMap :=
  let '(result, adminLevelMap) := st in
  if includes "locality" component.(types) then
    (set_locality component.(long_name) result, adminLevelMap)
  else if includes "sublocality" component.(types) && negb (truthy_str result.(locality)) then
    (set_locality component.(long_name) result, adminLevelMap)
  else
    match filter (fun t => bool_decide (is_Some (index 0 "administrative_area_level" t))) component.(types) with
    | adminLevelStr :: _ =>
      if truthy_str (Some adminLevelStr) then
        let adminLevel := Number (replace "administrative_area_level_" "" adminLevelStr) in
        (result, map_set adminLevel component.(long_name) adminLevelMap)
      else if includes "country" component.(types) then
        (set_country component.(short_name) result, adminLevelMap)
      else (result, adminLevelMap)
    | [] =>
      if includes "country" component.(types) then
        (set_country component.(short_name) result, adminLevelMap)
      else (result, adminLevelMap)
    end.

(** [lowestLevels] and the two assignments after the walk (lines 199-202).
    [adminLevelMap.get(undefined)] is [undefined]. *)
Definition lowestLevels (adminLevelMap : AdminLevelMap) : list JsNumber :=
  take 2 (sort (map fst adminLevelMap)).

Definition assignAdminLevels (adminLevelMap : AdminLevelMap) (result : EtomonLocation) : EtomonLocation :=
  let lowest := lowestLevels adminLevelMap in
  let get i := match lowest !! i with Some k => map_get k adminLevelMap | None => None end in
  set_administrativeLevel2 (get 1%nat) (set_administrativeLevel1 (get 0%nat) result).

(** The numeric order of the keys, and the keys of one decimal digit. *)
Definition key_le (a b : JsNumber) : Prop :=
  match a, b with
  | Num x, Num y => (x <= y)%N
  | _, _ => False
  end.

Definition one_digit (k : JsNumber) : Prop :=
  match k with Num n => (n < 10)%N | NaN => False end.

(** One iteration of the loop over [rawResults] (lines 157-204): the record
    that is yielded, or the error that is thrown. *)
Definition processRawResult (query : option EtomonLocation) (result0 : option EtomonLocation)
    (rawResult : RawResult) : Completion EtomonLocation :=
  match rawResult.(geometry) with
  | Some {| lat := Some la; lng := Some ln |} =>
    let result := default emptyLocation result0 in
    let result :=
      match result.(location) with
      | Some _ => result
      | None => set_location (Some (mkGeoJSON (Some (ln, la)) None None (Some "Point"))) result
      end in
    let result :=
      if truthy_str rawResult.(formatted_address)
      then set_address rawResult.(formatted_address) result else result in
    let result :=
      if truthy_str rawResult.(place_id)
      then set__id rawResult.(place_id) (set_id rawResult.(place_id) result) else result in
    match rawResult.(address_components) with
    | None => Abrupt (TypeError "components is not iterable")
    | Some components =>
      let '(result, adminLevelMap) := fold_left walkComponent components (result, []) in
      Normal (assignAdminLevels adminLevelMap result)
    end
  | _ => Abrupt (CouldNotResolveLocationError query)
  end.

(** ** Generators and requests *)

(** What [geoip.city(ip)] gives: [location.longitude], [location.latitude],
    [location.timezone], [country.isoCode], [subdivisions.0.names.en],
    [subdivisions.1.names.en] and [city.names.en]. *)
Record GeoIpCity := mkGeoIpCity {
  longitude : option Z;
  latitude : option Z;
  city_timezone : option string;
  isoCode : option string;
  subdivision0 : option string;
  subdivision1 : option string;
  city_name : option string }.

(** An async function or async generator, up to its next request.  [Yield y k]
    hands [y] to the consumer; when the consumer pulls again, [k] receives
    the state in which the consumer left the yielded object (the generator
    may hold a reference to it). *)
Inductive Gen (R : Type) : Type :=
| Ret (r : R)
| Throw (e : Err)
| Yield (y : option EtomonLocation) (k : option EtomonLocation -> Gen R)
| CacheGet (key : string) (k : option (list (option EtomonLocation)) -> Gen R)
| CachePut (key : string) (v : list (option EtomonLocation)) (k : Gen R)
| Fetch (api : string) (qs : list (string * option string)) (k : option GoogleData -> Gen R)
| GeoIpLookup (ip : string) (k : option GeoIpCity -> Gen R)
| DateNow (k : Z -> Gen R).
Arguments Ret {R} r.
Arguments Throw {R} e.
Arguments Yield {R} y k.
Arguments CacheGet {R} key k.
Arguments CachePut {R} key v k.
Arguments Fetch {R} api qs k.
Arguments GeoIpLookup {R} ip k.
Arguments DateNow {R} k.

Fixpoint bind {A B : Type} (m : Gen A) (f : A -> Gen B) : Gen B :=
  match m with
  | Ret r => f r
  | Throw e => Throw e
  | Yield y k => Yield y (fun back => bind (k back) f)
  | CacheGet key k => CacheGet key (fun r => bind (k r) f)
  | CachePut key v k => CachePut key v (bind k f)
  | Fetch api qs k => Fetch api qs (fun r => bind (k r) f)
  | GeoIpLookup ip k => GeoIpLookup ip (fun r => bind (k r) f)
  | DateNow k => DateNow (fun t => bind (k t) f)
  end.

(** [try { m } catch (err) { h err }]. *)
Fixpoint try_catch {A : Type} (m : Gen A) (h : Err -> Gen A) : Gen A :=
  match m with
  | Ret r => Ret r
  | Throw e => h e
  | Yield y k => Yield y (fun back => try_catch (k back) h)
  | CacheGet key k => CacheGet key (fun r => try_catch (k r) h)
  | CachePut key v k => CachePut key v (try_catch k h)
  | Fetch api qs k => Fetch api qs (fun r => try_catch (k r) h)
  | GeoIpLookup ip k => GeoIpLookup ip (fun r => try_catch (k r) h)
  | DateNow k => DateNow (fun t => try_catch (k t) h)
  end.

Declare Scope gen_scope.
Delimit Scope gen_scope with gen.
Notation "x <- m ;; k" := (bind m (fun x => k))
  (at level 100, m at next level, right associativity) : gen_scope.
Notation "m ;;; k" := (bind m (fun _ => k))
  (at level 100, right associativity) : gen_scope.
Open Scope gen_scope.

(** [for (const loc of locs) yield loc]. *)
Fixpoint yield_all (locs : list (option EtomonLocation)) : Gen unit :=
  match locs with
  | [] => Ret tt
  | loc :: locs' => Yield loc (fun _ => yield_all locs')
  end.

(** The strategies the cascade walks through. *)
Inductive LocationResolvePriorities :=
| P_id
| P_location
| P_googlePlaceId
| P_address
| P_locality
| P_administrativeLevel1
| P_administrativeLevel2
| P_country
| P_ipAddress.

Definition defaultResolvePriorities : list LocationResolvePriorities :=
  [ P_ipAddress; P_id; P_location; P_googlePlaceId; P_address; P_locality;
    P_administrativeLevel1; P_administrativeLevel2; P_country ].

(** [GeoResolverOptions]: whether a cache is configured, and the order of the
    strategies. *)
Record GeoResolverOptions := mkOptions {
  cache : bool;
  resolvePriority : list LocationResolvePriorities }.

Definition defaultGeoResolverOptions : GeoResolverOptions :=
  mkOptions false defaultResolvePriorities.

(** [value.replace(/\s/ig, '+')], on the ASCII white space. *)
Definition is_space (c : ascii) : bool :=
  let n := nat_of_ascii c in
  ((n =? 32) || ((9 <=? n) && (n <=? 13)))%nat.

Fixpoint plus_spaces (s : string) : string :=
  match s with
  | EmptyString => EmptyString
  | String c s' => String (if is_space c then "+"%char else c) (plus_spaces s')
  end.

(** ** Lookup strategies

    The cascade calls every strategy with an object, never with [null]. *)

Section Resolver.
Variable E : Externals.
Variable O : GeoResolverOptions.

(** [makeGoogleRequest] (lines 355-368); the API key is left out of the
    query string. *)
Definition makeGoogleRequest (qs : list (string * option string))
    (query : option EtomonLocation) (api : string) : Gen GoogleData :=
  Fetch api qs (fun r =>
    match r with
    | None => Throw FetchError
    | Some data =>
      if bool_decide (data.(status) = Some "OK") then Ret data
      else Throw (LocationQueryError query
                    (ErrorMessage (default "" (or_str data.(error_message) data.(status)))))
    end).

(** [processGoogleResponse] (lines 151-207). *)
Fixpoint yieldRawResults (query result0 : option EtomonLocation) (rawResults : list RawResult)
  : Gen unit :=
  match rawResults with
  | [] => Ret tt
  | rawResult :: rest =>
    match processRawResult query result0 rawResult with
    | Normal result => Yield (Some result) (fun _ => yieldRawResults query result0 rest)
    | Abrupt e => Throw e
    end
  end.

Definition processGoogleResponse (result0 : option EtomonLocation)
    (googleResponse : option GoogleData) : Gen unit :=
  let query := queryFromLocation E result0 in
  match googleResponse with
  | Some data =>
    match data.(results) with
    | Some rawResults => yieldRawResults query result0 rawResults
    | None => Ret tt
    end
  | None => Ret tt
  end.

(** [query.location.coordinates], or the [TypeError] of reading it. *)
Definition coordinatesOf (query : EtomonLocation) : Completion GeoJSONCoordinates :=
  match query.(location) with
  | Some g =>
    match g.(coordinates) with
    | Some c => Normal c
    | None => Abrupt (TypeError "Cannot read properties of undefined (reading '1')")
    end
  | None => Abrupt (TypeError "Cannot read properties of undefined (reading 'coordinates')")
  end.

(** The template literal [`${coordinates[1]},${coordinates[0]}`]. *)
Definition latlng (c : GeoJSONCoordinates) : string :=
  string_of_Z (snd c) ++ "," ++ string_of_Z (fst c).

(** [assembleAddressComponents] (lines 389-403), in insertion order. *)
Definition assembleAddressComponents (input : EtomonLocation) : list (string * string) :=
  let query := canonicalQuery E input in
  let entry (k : string) (v : option string) :=
    match v with Some s => if truthy_str v then [(k, s)] else [] | None => [] end in
  entry "locality" query.(locality) ++
  entry "administrative_area_level_2" query.(administrativeLevel2) ++
  entry "administrative_area_level_1" query.(administrativeLevel1) ++
  entry "country" query.(country).

(** [getTimezone] (lines 420-444): [None] is the result [null]; [Some r] is
    the argument object, in state [r]. *)
Definition getTimezone (result : EtomonLocation) (timestamp : option Z)
  : Gen (option EtomonLocation) :=
  let query := canonicalQuery E result in
  try_catch
    (match coordinatesOf query with
     | Abrupt e => Throw e
     | Normal c =>
       t <- match timestamp with Some t => Ret t | None => DateNow Ret end ;;
       timezoneData <- makeGoogleRequest
         [("location", Some (latlng c)); ("timestamp", Some (string_of_Z t))]
         (Some query) "timezone" ;;
       if negb (truthy_str timezoneData.(timeZoneId)) then Ret None
       else
         let result :=
           match result.(location) with
           | Some _ => result
           | None => set_location (Some (mkGeoJSON (Some c) None None (Some "Point"))) result
           end in
         let result := set_id (or_str result.(id) query.(id)) result in
         Ret (Some (set_timezone timezoneData.(timeZoneId) result))
     end)
    (fun err => Throw (LocationQueryError (Some query) err)).

(** [getCountryInfo] (lines 464-480): the state in which the call leaves the
    argument object, and the error it throws, if any. *)
Definition getCountryInfo (result : EtomonLocation) : EtomonLocation * option Err :=
  let query := canonicalQuery E result in
  let info := match query.(country) with Some c => E.(countryData) c | None => None end in
  match result.(location) with
  | None =>
    (result, Some (LocationQueryError (Some query)
                     (TypeError "Cannot read properties of undefined (reading 'coordinates')")))
  | Some _ =>
    let result := set_id (or_str result.(id) query.(id)) result in
    match info with
    | None =>
      (result, Some (LocationQueryError (Some query)
                       (TypeError "Cannot read properties of undefined (reading 'languages')")))
    | Some i =>
      match mapM E.(languageData) i.(clanguages) with
      | None =>
        (result, Some (LocationQueryError (Some query)
                         (TypeError "Cannot read properties of undefined (reading 'name')")))
      | Some names =>
        (set_phoneCode i.(cphone) (set_languages (Some (map Some names)) result), None)
      end
    end
  end.

(** [resolveLocationByLatitudeAndLongitude] (lines 501-514). *)
Definition resolveLocationByLatitudeAndLongitude (result : EtomonLocation) : Gen unit :=
  let query := canonicalQuery E result in
  try_catch
    (match coordinatesOf query with
     | Abrupt e => Throw e
     | Normal c =>
       geocodeData <- makeGoogleRequest [("latlng", Some (latlng c))] (Some query) "geocode" ;;
       processGoogleResponse (Some query) (Some geocodeData)
     end)
    (fun err => Throw (LocationQueryError (Some query) err)).

(** [resolveLocationByAddress] (lines 535-552). *)
Definition resolveLocationByAddress (result : EtomonLocation) : Gen unit :=
  let query := canonicalQuery E result in
  try_catch
    (geocodeData <- makeGoogleRequest
       [("region", query.(region)); ("address", query.(address))] (Some query) "geocode" ;;
     processGoogleResponse (Some query) (Some geocodeData))
    (fun err => Throw (LocationQueryError (Some query) err)).

(** [resolveLocationByPlaceId] (lines 573-594). *)
Definition resolveLocationByPlaceId (result : EtomonLocation) : Gen unit :=
  let query := canonicalQuery E result in
  try_catch
    (let place := or_str query.(_id) query.(id) in
     let q := if negb (truthy_str place) && truthy_str query.(region)
              then [("region", query.(region))]
              else [("place_id", place)] in
     geocodeData <- makeGoogleRequest q (Some query) "geocode" ;;
     processGoogleResponse (Some query) (Some geocodeData))
    (fun err => Throw (LocationQueryError (Some query) err)).

(** [resolveLocationByAddressComponents] (lines 616-640). *)
Definition resolveLocationByAddressComponents (result : EtomonLocation) : Gen unit :=
  let query := canonicalQuery E result in
  try_catch
    (let components := assembleAddressComponents query in
     let c := map (fun kv : string * string =>
                  (if bool_decide (is_Some (index 0 "administrative_area" (fst kv)))
                   then "administrative_area" else fst kv) ++ ":" ++ plus_spaces (snd kv))
                components in
     geocodeData <- makeGoogleRequest
       [("region", query.(region)); ("components", Some (String.concat "|" c))]
       (Some query) "geocode" ;;
     processGoogleResponse (Some query) (Some geocodeData))
    (fun err => Throw (LocationQueryError (Some query) err)).

(** The assignments of [resolveLocationByIpAddress] to [output] (lines
    669-715). *)
Definition ipOutput (query result : EtomonLocation) (geoRes : GeoIpCity) : EtomonLocation :=
  let output := result in
  let output :=
    match geoRes.(longitude), geoRes.(latitude) with
    | Some ln, Some la =>
      if truthy_num (Some ln) && truthy_num (Some la)
      then set_location (Some (mkGeoJSON (Some (ln, la)) None None (Some "Point"))) output
      else output
    | _, _ => output
    end in
  let output := if truthy_str geoRes.(city_timezone)
                then set_timezone geoRes.(city_timezone) output else output in
  let country0 := geoRes.(isoCode) in
  let output := if truthy_str country0 then set_country country0 output else output in
  let countryDataObj :=
    match country0 with
    | Some c => if truthy_str country0 then E.(countryData) c else None
    | None => None
    end in
  let countryName0 := countryDataObj ≫= cname in
  let output := if truthy_str countryName0 then set_countryName countryName0 output else output in
  let languages0 := option_map (fun d => map E.(languageData) d.(clanguages)) countryDataObj in
  let output :=
    match languages0 with
    | Some (_ :: _) => set_languages languages0 output
    | _ => output
    end in
  let output := if truthy_str geoRes.(subdivision0)
                then set_administrativeLevel1 geoRes.(subdivision0) output else output in
  let output := if truthy_str geoRes.(subdivision1)
                then set_administrativeLevel2 geoRes.(subdivision1) output else output in
  let output := if truthy_str geoRes.(city_name)
                then set_locality geoRes.(city_name) output else output in
  let label :=
    LabelLocation (Some (set_countryName countryName0
                           (set_administrativeLevel2 geoRes.(subdivision1)
                              (set_administrativeLevel1 geoRes.(subdivision0)
                                 (set_locality geoRes.(city_name) emptyLocation))))) in
  let output :=
    match label with
    | Normal (Some a) => if truthy_str (Some a) then set_address (Some a) output else output
    | _ => output
    end in
  let key := cacheKey E (Some query) in
  set_id (Some key) (set__id (Some key) output).

(** [resolveLocationByIpAddress] (lines 661-723).  [output] is the argument
    object itself: the generator returns the state in which its consumer
    left that object. *)
Definition resolveLocationByIpAddress (result : EtomonLocation) : Gen EtomonLocation :=
  let query := canonicalQuery E result in
  try_catch
    (match query.(ipAddress) with
     | None => Throw GeoIpError
     | Some ip =>
       GeoIpLookup ip (fun r =>
         match r with
         | None => Throw GeoIpError
         | Some geoRes =>
           let output := ipOutput query result geoRes in
           Yield (Some output) (fun back => Ret (default output back))
         end)
     end)
    (fun err => Throw (LocationQueryError (Some query) err)).

(** ** Cache adapter *)

(** [getLocationsFromCache] (lines 790-806); a missing key is the [notFound]
    error the function swallows (the only answers of the store that are
    modelled are a value and [notFound]). *)
Definition getLocationsFromCache (q : EtomonLocation) : Gen (list (option EtomonLocation)) :=
  if O.(cache)
  then CacheGet (cacheKey E (Some q)) (fun r => Ret (default [] r))
  else Ret [].

(** [getLocationsFromCacheCount] (lines 828-830). *)
Definition getLocationsFromCacheCount (input : EtomonLocation) : Gen nat :=
  locs <- getLocationsFromCache input ;; Ret (length locs).

(** ** Resolution cascade ([resolveLocation], lines 852-1015) *)

(** [query[priority]], as a condition. *)
Definition priorityField (query : EtomonLocation) (priority : LocationResolvePriorities) : bool :=
  match priority with
  | P_id => truthy_str query.(id)
  | P_location => bool_decide (is_Some query.(location))
  | P_googlePlaceId => false
  | P_address => truthy_str query.(address)
  | P_locality => truthy_str query.(locality)
  | P_administrativeLevel1 => truthy_str query.(administrativeLevel1)
  | P_administrativeLevel2 => truthy_str query.(administrativeLevel2)
  | P_country => truthy_str query.(country)
  | P_ipAddress => truthy_str query.(ipAddress)
  end.

(** [if (v) q[f] = v]. *)
Definition set_if (set : option string -> EtomonLocation -> EtomonLocation)
    (v : option string) (q : EtomonLocation) : EtomonLocation :=
  if truthy_str v then set v q else q.

(** The narrow cache probe [q] of a strategy; the IP address and the
    place-id strategies have none. *)
Definition probe (query : EtomonLocation) (priority : LocationResolvePriorities)
  : option EtomonLocation :=
  match priority with
  | P_id => Some (set__id query.(id) emptyLocation)
  | P_location => Some query
  | P_address => Some (set_address query.(address) emptyLocation)
  | P_locality =>
    Some (set_if set_country query.(country)
           (set_if set_administrativeLevel1 query.(administrativeLevel1)
              (set_if set_administrativeLevel2 query.(administrativeLevel2)
                 (set_locality query.(locality) emptyLocation))))
  | P_administrativeLevel2 =>
    Some (set_if set_country query.(country)
           (set_if set_administrativeLevel1 query.(administrativeLevel1)
              (set_administrativeLevel2 query.(administrativeLevel2) emptyLocation)))
  | P_administrativeLevel1 =>
    Some (set_if set_country query.(country)
           (set_administrativeLevel1 query.(administrativeLevel1) emptyLocation))
  | P_country => Some (set_country query.(country) emptyLocation)
  | P_googlePlaceId | P_ipAddress => None
  end.

(** The condition of the [else if] branch of a strategy, after the test of
    [priority] itself. *)
Definition branchGuard (query result : EtomonLocation) (priority : LocationResolvePriorities)
  : bool :=
  match priority with
  | P_ipAddress => truthy_str query.(ipAddress) && bool_decide (query.(id) = result.(id))
  | P_id => truthy_str query.(id) && bool_decide (query.(id) = result.(id))
  | P_location =>
    bool_decide (is_Some (query.(location) ≫= coordinates))
    && bool_decide (result.(location) = query.(location))
  | P_address => truthy_str query.(address) && bool_decide (result.(address) = query.(address))
  | P_locality => truthy_str query.(locality) && bool_decide (result.(locality) = query.(locality))
  | P_administrativeLevel2 =>
    truthy_str query.(administrativeLevel2)
    && bool_decide (result.(administrativeLevel2) = query.(administrativeLevel2))
  | P_administrativeLevel1 =>
    truthy_str query.(administrativeLevel1)
    && bool_decide (result.(administrativeLevel1) = query.(administrativeLevel1))
  | P_country => truthy_str query.(country) && bool_decide (result.(country) = query.(country))
  | P_googlePlaceId => false
  end.

(** The lookup strategy a branch invokes on a cache miss. *)
Definition strategy (result : EtomonLocation) (priority : LocationResolvePriorities) : Gen unit :=
  match priority with
  | P_id => resolveLocationByPlaceId result
  | P_location => resolveLocationByLatitudeAndLongitude result
  | P_address => resolveLocationByAddress result
  | P_locality | P_administrativeLevel2 | P_administrativeLevel1 | P_country =>
    resolveLocationByAddressComponents result
  | P_googlePlaceId | P_ipAddress => Ret tt
  end.

(** The body shared by the seven branches that probe the cache: on a hit the
    cached records are yielded and the loop is left ([break]); on a miss the
    strategy's records are yielded and the loop goes on ([next]). *)
Definition fromCacheOr (q : EtomonLocation) (live next : Gen unit) : Gen unit :=
  n <- getLocationsFromCacheCount q ;;
  if (0 <? n)%nat
  then (locs <- getLocationsFromCache q ;; yield_all locs)
  else (live ;;; next).

(** The loop over [this.options.resolvePriority].  The tests
    [priority === ...] of the [else if] chain exclude each other, so the chain
    is a case distinction on [priority]; [result] is the argument object, which
    the IP strategy edits and yields. *)
Fixpoint resolveLocationLoop (query : EtomonLocation)
    (priorities : list LocationResolvePriorities) (result : EtomonLocation) : Gen unit :=
  match priorities with
  | [] => Ret tt
  | priority :: rest =>
    if negb (bool_decide (is_Some result.(location)))
       && negb (truthy_str query.(ipAddress))
       && negb (priorityField query priority)
    then resolveLocationLoop query rest result
    else if negb (branchGuard query result priority)
    then resolveLocationLoop query rest result
    else
      match priority with
      | P_ipAddress =>
        result' <- resolveLocationByIpAddress result ;;
        if negb (default false query.(resolveIpWithGeo))
        then Ret tt
        else resolveLocationLoop query rest result'
      | _ =>
        match probe query priority with
        | Some q => fromCacheOr q (strategy result priority) (resolveLocationLoop query rest result)
        | None => resolveLocationLoop query rest result
        end
      end
  end.

Definition resolveLocation (result : option EtomonLocation) : Gen unit :=
  match result with
  | None => Ret tt
  | Some r => resolveLocationLoop (canonicalQuery E r) O.(resolvePriority) r
  end.

(** [for await (const loc of g) { return loc; } return null]. *)
Fixpoint first_of (g : Gen unit) : Gen (option EtomonLocation) :=
  match g with
  | Ret _ => Ret None
  | Throw e => Throw e
  | Yield loc _ => Ret loc
  | CacheGet key k => CacheGet key (fun r => first_of (k r))
  | CachePut key v k => CachePut key v (first_of k)
  | Fetch api qs k => Fetch api qs (fun r => first_of (k r))
  | GeoIpLookup ip k => GeoIpLookup ip (fun r => first_of (k r))
  | DateNow k => DateNow (fun t => first_of (k t))
  end.

(** [GeoResolver.resolveOneLocation] (lines 1036-1041). *)
Definition resolveOneLocation (result : option EtomonLocation) : Gen (option EtomonLocation) :=
  first_of (resolveLocation result).

(** ** Aggregate resolution *)

(** The [try] block of [resolveLocationsInner] with its empty [catch] (lines
    1137-1143): the value of the variable [result] after it, [None] for
    [null].  An error thrown by [getTimezone] leaves [result] as it was; when
    [getTimezone] returns [null], reading [result.languages] throws inside
    the block; [getCountryInfo] edits the object before it can throw. *)
Definition enrich (result : EtomonLocation) : Gen (option EtomonLocation) :=
  let countryInfo (r : EtomonLocation) : Gen (option EtomonLocation) :=
    if bool_decide (r.(languages) = None) || bool_decide (r.(phoneCode) = None)
    then Ret (Some (fst (getCountryInfo r)))
    else Ret (Some r) in
  match result.(timezone) with
  | None =>
    tz <- try_catch (r <- getTimezone result None ;; Ret (Normal r))
                    (fun err => Ret (Abrupt err)) ;;
    match tz with
    | Abrupt _ => Ret (Some result)
    | Normal None => Ret None
    | Normal (Some r) => countryInfo r
    end
  | Some _ => countryInfo result
  end.

(** The loop of [resolveLocationsInner] (lines 1126-1147) over the generator
    [results]; [basket] is the [Set] of the raw [id]s seen, [undefined]
    among them. *)
Fixpoint aggregate (results : Gen unit) (basket : gset (option string)) : Gen unit :=
  match results with
  | Ret _ => Ret tt
  | Throw e => Throw e
  | Yield None _ => Ret tt
  | Yield (Some result) k =>
    if bool_decide (result.(id) ∈ basket)
    then aggregate (k (Some result)) basket
    else
      r <- enrich result ;;
      match locationFromQuery E r with
      | Abrupt e => Throw e
      | Normal out =>
        Yield out (fun back =>
          aggregate (k (match r with Some _ => back | None => Some result end))
                    ({[ result.(id) ]} ∪ basket))
      end
  | CacheGet key k => CacheGet key (fun r => aggregate (k r) basket)
  | CachePut key v k => CachePut key v (aggregate k basket)
  | Fetch api qs k => Fetch api qs (fun r => aggregate (k r) basket)
  | GeoIpLookup ip k => GeoIpLookup ip (fun r => aggregate (k r) basket)
  | DateNow k => DateNow (fun t => aggregate (k t) basket)
  end.

(** [resolveLocationsInner] (lines 1122-1149). *)
Definition resolveLocationsInner (result : option EtomonLocation) : Gen unit :=
  let query := queryFromLocation E result in
  aggregate (resolveLocation query) ∅.

(** [for await (let location of g) { results.push(location); yield location }]
    (lines 1109-1113): the list holds the objects as the consumer left them. *)
Fixpoint collecting (g : Gen unit) (acc : list (option EtomonLocation))
  : Gen (list (option EtomonLocation)) :=
  match g with
  | Ret _ => Ret acc
  | Throw e => Throw e
  | Yield location k => Yield location (fun back => collecting (k back) (acc ++ [back]))
  | CacheGet key k => CacheGet key (fun r => collecting (k r) acc)
  | CachePut key v k => CachePut key v (collecting k acc)
  | Fetch api qs k => Fetch api qs (fun r => collecting (k r) acc)
  | GeoIpLookup ip k => GeoIpLookup ip (fun r => collecting (k r) acc)
  | DateNow k => DateNow (fun t => collecting (k t) acc)
  end.

(** [resolveLocations] (lines 1086-1116). *)
Definition resolveLocations (result : option EtomonLocation) : Gen unit :=
  let query := queryFromLocation E result in
  let miss (useCache : bool) :=
    locs <- collecting (resolveLocationsInner query) [] ;;
    if useCache then CachePut (cacheKey E query) locs (Ret tt) else Ret tt in
  if O.(cache) then
    match query with
    | None => Throw (TypeError "Cannot read properties of null (reading 'fromCache')")
    | Some q =>
      if negb (bool_decide (q.(fromCache) = Some false)) then
        CacheGet (cacheKey E query) (fun cachedQueries =>
          match cachedQueries with
          | Some locations => yield_all locations
          | None => miss true
          end)
      else miss false
    end
  else miss false.

(** [GeoRPCHandler.resolveOneLocation] ([routes.ts], lines 76-80). *)
Definition rpcResolveOneLocation (query : option EtomonLocation) : Gen (option EtomonLocation) :=
  first_of (resolveLocations query).

End Resolver.

(** ** Running a generator against the outside world *)

(** What a run does, in order. *)
Inductive Event :=
| ECacheGet (key : string)
| ECachePut (key : string) (v : list (option EtomonLocation))
| EFetch (api : string) (qs : list (string * option string))
| EGeoIp (ip : string)
| EDateNow
| EYield (y : option EtomonLocation).

(** The cache store, the provider, the IP database and the clock.  The store
    holds the lists as [deserializeObject] returns them. *)
Record World := mkWorld {
  store : gmap string (list (option EtomonLocation));
  google : string -> list (string * option string) -> option GoogleData;
  geoip : string -> option GeoIpCity;
  clock : Z }.

Record Run (R : Type) := mkRun {
  trace : list Event;
  outcome : Completion R;
  final : gmap string (list (option EtomonLocation)) }.
Arguments mkRun {R} trace outcome final.
Arguments trace {R} r.
Arguments outcome {R} r.
Arguments final {R} r.

Definition prepend {R : Type} (t : list Event) (r : Run R) : Run R :=
  mkRun (t ++ r.(trace)) r.(outcome) r.(final).

Definition after {R : Type} (e : Event) (r : Run R) : Run R :=
  mkRun (e :: r.(trace)) r.(outcome) r.(final).

(** The world with the cache store [s]. *)
Definition with_store (w : World) (s : gmap string (list (option EtomonLocation))) : World :=
  mkWorld s w.(google) w.(geoip) w.(clock).

(** [run consume w g]: the generator [g] is drained; [consume] is what the
    consumer does to a yielded object before it pulls again. *)
Fixpoint run {R : Type} (consume : option EtomonLocation -> option EtomonLocation)
    (w : World) (g : Gen R) : Run R :=
  match g with
  | Ret r => mkRun [] (Normal r) w.(store)
  | Throw e => mkRun [] (Abrupt e) w.(store)
  | Yield y k => after (EYield y) (run consume w (k (consume y)))
  | CacheGet key k => after (ECacheGet key) (run consume w (k (w.(store) !! key)))
  | CachePut key v k =>
    after (ECachePut key v) (run consume (with_store w (<[key := v]> w.(store))) k)
  | Fetch api qs k => after (EFetch api qs) (run consume w (k (w.(google) api qs)))
  | GeoIpLookup ip k => after (EGeoIp ip) (run consume w (k (w.(geoip) ip)))
  | DateNow k => after EDateNow (run consume w (k w.(clock)))
  end.

(** The records a run yields, in order. *)
Definition yields {R : Type} (r : Run R) : list (option EtomonLocation) :=
  omap (fun e => match e with EYield y => Some y | _ => None end) r.(trace).

(** The requests a run makes before its first yield. *)
Fixpoint before_first_yield (t : list Event) : list Event :=
  match t with
  | [] => []
  | EYield _ :: _ => []
  | e :: t' => e :: before_first_yield t'
  end.

Definition is_fetch (e : Event) : bool :=
  match e with EFetch _ _ => true | _ => false end.

(** ** Objects held by reference

    The canonicalization functions applied to an object that lives in a store
    of objects: [locationFromQuery] edits the object at the address it is
    given and returns that address; [queryFromLocation] builds a new object
    and leaves the store alone. *)



(** ** The safe label, in the words of the specification *)

(** A field is present when it holds a non-empty string. *)
Definition present (v : option string) : list string :=
  match v with Some s => if String.eqb s "" then [] else [s] | None => [] end.

(** The non-empty fields among (locality, else administrative level 2),
    administrative level 1 and country name, joined with [", "]; else the
    address; else the empty string. *)
Definition safeLabelSpec (l : EtomonLocation) : string :=
  let city := match present l.(locality) with [] => present l.(administrativeLevel2) | p => p end in
  match (city ++ present l.(administrativeLevel1) ++ present l.(countryName))%list with
  | [] => match present l.(address) with [] => "" | a :: _ => a end
  | fields => String.concat ", " fields
  end.

(** ** Sample tables, provider answers and stores *)

Module Sample.

Definition hash_string (s : string) (h : N) : N :=
  fold_left (fun acc c => ((acc * 31 + N.of_nat (nat_of_ascii c)) mod 2 ^ 64)%N)
            (list_ascii_of_string s) h.

Definition hash_value (v : PropValue) (h : N) : N :=
  match v with
  | PStr s => hash_string s (h + 1)
  | PBool b => ((h * 31 + (if b then 2 else 3)) mod 2 ^ 64)%N
  | PGeo c maxD minD =>
    hash_string (string_of_Z (fst c) ++ "," ++ string_of_Z (snd c) ++ "," ++
                 string_of_Z maxD ++ "," ++ string_of_Z minD) (h + 4)
  end.

(** Stand-ins for the tables and for the encoder (a 64-bit digest, printed in
    decimal). *)
Definition externals : Externals := {|
  byIso := fun c => if String.eqb c "US" then Some "US" else None;
  countryData := fun c =>
    if String.eqb c "US" then Some (mkCountryInfo (Some "United States") ["en"] (Some "1"))
    else None;
  languageData := fun l => if String.eqb l "en" then Some "English" else None;
  hashObject := fun props =>
    fold_left (fun h kv => hash_value (snd kv) (hash_string (fst kv) h)) props 0%N;
  encodeBuffer := fun n => NilZero.string_of_uint (N.to_uint n) |}.

Definition noCache : GeoResolverOptions := defaultGeoResolverOptions.
Definition withCache : GeoResolverOptions := mkOptions true defaultResolvePriorities.

Definition rawPlace : RawResult := {|
  geometry := Some (mkLatLng (Some 40) (Some (-74)));
  formatted_address := Some "New York, NY, USA";
  place_id := Some "X";
  address_components := Some
    [ mkComponent ["locality"; "political"] (Some "New York") (Some "New York");
      mkComponent ["administrative_area_level_1"; "political"] (Some "New York") (Some "NY");
      mkComponent ["country"; "political"] (Some "United States") (Some "US") ] |}.

Definition rawCountry : RawResult := {|
  geometry := Some (mkLatLng (Some 38) (Some (-97)));
  formatted_address := Some "United States";
  place_id := Some "US-place";
  address_components := Some
    [ mkComponent ["country"; "political"] (Some "United States") (Some "US") ] |}.

Definition ok (rs : list RawResult) : GoogleData :=
  mkGoogleData (Some "OK") None (Some rs) None.

(** The provider: a place for a [place_id] request, the country for any
    other geocoding request, and [tz] for a timezone request. *)
Definition provider (tz : GoogleData) (api : string) (qs : list (string * option string))
  : option GoogleData :=
  if String.eqb api "timezone" then Some tz
  else if existsb (fun kv => String.eqb (fst kv) "place_id") qs then Some (ok [rawPlace])
  else Some (ok [rawCountry]).

Definition googleDns : GeoIpCity := {|
  longitude := Some (-97); latitude := Some 37;
  city_timezone := Some "America/Chicago"; isoCode := Some "US";
  subdivision0 := None; subdivision1 := None; city_name := None |}.

Definition ipDatabase (ip : string) : option GeoIpCity :=
  if String.eqb ip "8.8.8.8" then Some googleDns else None.

(** A world whose timezone service answers with a zone. *)
Definition world : World :=
  mkWorld ∅ (provider (mkGoogleData (Some "OK") None None (Some "America/Chicago")))
          ipDatabase 1600000000.

(** A world whose timezone service answers [OK] without a [timeZoneId]. *)
Definition worldNoZone : World :=
  mkWorld ∅ (provider (mkGoogleData (Some "OK") None None None)) ipDatabase 1600000000.

Definition byCountry : EtomonLocation := set_country (Some "US") emptyLocation.
Definition byIdAndCountry : EtomonLocation := set_id (Some "X") byCountry.
Definition byLocality : EtomonLocation := set_locality (Some "Paris") emptyLocation.

Definition paris : EtomonLocation :=
  set_country (Some "FR") (set_locality (Some "Paris") (set_id (Some "paris-place") emptyLocation)).

(** A world whose cache holds a record under the narrow probe of
    [byLocality]. *)
Definition worldCached : World :=
  mkWorld {[ cacheKey externals (Some byLocality) := [Some paris] ]}
          (provider (ok [])) ipDatabase 1600000000.

(** Two records without an [id], and one with an [id]. *)
Definition anonymous1 : EtomonLocation :=
  set_timezone (Some "Europe/Paris") (set_phoneCode (Some "33")
    (set_languages (Some [Some "French"]) (set_locality (Some "Paris") emptyLocation))).
Definition anonymous2 : EtomonLocation :=
  set_timezone (Some "Europe/Rome") (set_phoneCode (Some "39")
    (set_languages (Some [Some "Italian"]) (set_locality (Some "Rome") emptyLocation))).
Definition named : EtomonLocation := set_id (Some "berlin-place") (set_timezone (Some "Europe/Berlin")
  (set_phoneCode (Some "49") (set_languages (Some [Some "German"])
     (set_locality (Some "Berlin") emptyLocation)))).

(** A world whose timezone service cannot be reached. *)
Definition worldZoneDown : World :=
  mkWorld ∅ (fun api qs => if String.eqb api "timezone" then None else provider (ok []) api qs)
          ipDatabase 1600000000.

(** A record with coordinates and no time zone. *)
Definition placed : EtomonLocation :=
  set_location (Some (mkGeoJSON (Some (2, 48)) None None (Some "Point"))) paris.

(** A provider result with the administrative levels 2 and 10. *)
Definition rawLevels : RawResult := {|
  geometry := Some (mkLatLng (Some 48) (Some 2));
  formatted_address := None;
  place_id := Some "levels-place";
  address_components := Some
    [ mkComponent ["administrative_area_level_2"; "political"] (Some "County") (Some "Co");
      mkComponent ["administrative_area_level_10"; "political"] (Some "Ward") (Some "Wd") ] |}.


End Sample.

(** ** Further field assignments *)

Definition set_fromCache (v : option bool) (r : EtomonLocation) : EtomonLocation :=
  mkLocation r.(id) r.(_id) r.(locality) r.(administrativeLevel1) r.(administrativeLevel2) r.(country) v r.(location) r.(region) r.(address) r.(ipAddress) r.(resolveIpWithGeo) r.(timezone) r.(languages) r.(phoneCode) r.(countryName) r.(safeLabel).
Definition set_resolveIpWithGeo (v : option bool) (r : EtomonLocation) : EtomonLocation :=
  mkLocation r.(id) r.(_id) r.(locality) r.(administrativeLevel1) r.(administrativeLevel2) r.(country) r.(fromCache) r.(location) r.(region) r.(address) r.(ipAddress) v r.(timezone) r.(languages) r.(phoneCode) r.(countryName) r.(safeLabel).

(** ** Kinds of requests *)

Inductive RequestKind :=
| KCacheGet
| KCachePut
| KFetch
| KGeoIp
| KDateNow.

(** The kind of request an event of a run records; a yield is none. *)
Definition kind_of (e : Event) : option RequestKind :=
  match e with
  | ECacheGet _ => Some KCacheGet
  | ECachePut _ _ => Some KCachePut
  | EFetch _ _ => Some KFetch
  | EGeoIp _ => Some KGeoIp
  | EDateNow => Some KDateNow
  | EYield _ => None
  end.

(** Every request the generator can make, whatever the answers it gets and
    whatever its consumer does, is of an allowed kind. *)
Fixpoint requests_only {R : Type} (allowed : RequestKind -> bool) (g : Gen R) : Prop :=
  match g with
  | Ret _ | Throw _ => True
  | Yield _ k => forall back, requests_only allowed (k back)
  | CacheGet _ k => allowed KCacheGet = true /\ forall r, requests_only allowed (k r)
  | CachePut _ _ k => allowed KCachePut = true /\ requests_only allowed k
  | Fetch _ _ k => allowed KFetch = true /\ forall r, requests_only allowed (k r)
  | GeoIpLookup _ k => allowed KGeoIp = true /\ forall r, requests_only allowed (k r)
  | DateNow k => allowed KDateNow = true /\ forall t, requests_only allowed (k t)
  end.

(** The requests of the cascade: the cache is read only when one is
    configured, and neither the clock nor a cache write occurs. *)
Definition cascadeRequests (O : GeoResolverOptions) (k : RequestKind) : bool :=
  match k with
  | KCacheGet => O.(cache)
  | KFetch | KGeoIp => true
  | KCachePut | KDateNow => false
  end.

(** The requests of the aggregation: those of the cascade and, for the time
    zone, the clock. *)
Definition aggregateRequests (O : GeoResolverOptions) (k : RequestKind) : bool :=
  match k with
  | KCacheGet => O.(cache)
  | KFetch | KGeoIp | KDateNow => true
  | KCachePut => false
  end.

(** The requests of [resolveLocations]: with a cache, also the write. *)
Definition resolveLocationsRequests (O : GeoResolverOptions) (k : RequestKind) : bool :=
  match k with
  | KCacheGet | KCachePut => O.(cache)
  | KFetch | KGeoIp | KDateNow => true
  end.

(** ** RPC handler ([routes.ts]) *)

(** [for await (const ele of g) { results.push(ele); } return results]
    ([GeoRPCHandler.resolveLocations], lines 68-74). *)
Fixpoint to_array (g : Gen unit) (results : list (option EtomonLocation))
  : Gen (list (option EtomonLocation)) :=
  match g with
  | Ret _ => Ret results
  | Throw e => Throw e
  | Yield ele k => to_array (k ele) (results ++ [ele])
  | CacheGet key k => CacheGet key (fun r => to_array (k r) results)
  | CachePut key v k => CachePut key v (to_array k results)
  | Fetch api qs k => Fetch api qs (fun r => to_array (k r) results)
  | GeoIpLookup ip k => GeoIpLookup ip (fun r => to_array (k r) results)
  | DateNow k => DateNow (fun t => to_array (k t) results)
  end.

Definition rpcResolveLocations (E : Externals) (O : GeoResolverOptions)
    (query : option EtomonLocation) : Gen (list (option EtomonLocation)) :=
  to_array (resolveLocations E O query) [].

(** ** Client ([GeoClient.ensureLocation]) *)

(** An element of [inputs]: a string; an object, with its [place_id] and
    [description] properties and its location fields; or anything else
    ([null], [undefined], a number). *)
Inductive EnsureInput :=
| InString (s : string)
| InObject (place description : option string) (l : EtomonLocation)
| InOther.

(** The client up to its next call of the server's [resolveOneLocation]. *)
Inductive Rpc (R : Type) : Type :=
| RpcRet (r : R)
| RpcResolveOne (query : EtomonLocation) (k : option EtomonLocation -> Rpc R).
Arguments RpcRet {R} r.
Arguments RpcResolveOne {R} query k.

(** The loop of [ensureLocation] (lines 90-121 of the client); [results] is
    the array built so far. *)
Fixpoint ensureLocationLoop (inputs : list EnsureInput) (resolveResults : bool)
    (results : list EtomonLocation) : Rpc (list EtomonLocation) :=
  match inputs with
  | [] => RpcRet results
  | input :: rest =>
    let next (result : option EtomonLocation) :=
      ensureLocationLoop rest resolveResults
        (match result with Some r => results ++ [r] | None => results end) in
    match input with
    | InString s => RpcResolveOne (set_id (Some s) emptyLocation) next
    | InObject (Some p) description _ =>
      if resolveResults
      then RpcResolveOne (set_id (Some p) emptyLocation) next
      else next (Some (set__id (Some p) (set_address description (set_id (Some p) emptyLocation))))
    | InObject None _ l =>
      if bool_decide (is_Some l.(id)) || bool_decide (is_Some l.(_id)) then
        if resolveResults then
          if truthy_str l.(id) then RpcResolveOne (set_id l.(id) emptyLocation) next
          else if truthy_str l.(_id) then RpcResolveOne (set_id l.(_id) emptyLocation) next
          else next (Some l)
        else next (Some l)
      else next None
    | InOther => next None
    end
  end.

(** [ensureLocation] (lines 87-124 of the client); a single input is the
    list of that input ([[].concat(inputs)]). *)
Definition ensureLocation (inputs : list EnsureInput) (resolveResults : bool)
  : Rpc (list EtomonLocation) :=
  ensureLocationLoop inputs resolveResults [].

(** A run of the client against a server: the queries sent, the outcome and
    the state in which the server is left.  A call the server rejects
    rejects the whole call of the client. *)
Record RpcRun (St R : Type) := mkRpcRun {
  calls : list EtomonLocation;
  rpc_outcome : Completion R;
  server_state : St }.
Arguments mkRpcRun {St R} calls rpc_outcome server_state.
Arguments calls {St R} r.
Arguments rpc_outcome {St R} r.
Arguments server_state {St R} r.

Fixpoint run_rpc {St R : Type}
    (server : St -> EtomonLocation -> St * Completion (option EtomonLocation))
    (s : St) (m : Rpc R) : RpcRun St R :=
  match m with
  | RpcRet r => mkRpcRun [] (Normal r) s
  | RpcResolveOne query k =>
    match server s query with
    | (s', Normal answer) =>
      let r := run_rpc server s' (k answer) in
      mkRpcRun (query :: r.(calls)) r.(rpc_outcome) r.(server_state)
    | (s', Abrupt e) => mkRpcRun [query] (Abrupt e) s'
    end
  end.

(** The server of the model behind the client: the RPC handler's
    [resolveOneLocation], run on the store the previous call left. *)
Definition rpcServer (E : Externals) (O : GeoResolverOptions) (w : World)
    (s : gmap string (list (option EtomonLocation))) (query : EtomonLocation)
  : gmap string (list (option EtomonLocation)) * Completion (option EtomonLocation) :=
  let r := run (fun y => y) (with_store w s) (rpcResolveOneLocation E O (Some query)) in
  (r.(final), r.(outcome)).

(** ** Further sample queries, provider results and stores *)

Module Fixtures.

(** A world whose cache holds an aggregate entry for [Sample.byCountry]. *)
Definition worldAggregate : World :=
  mkWorld {[ cacheKey Sample.externals (queryFromLocation Sample.externals (Some Sample.byCountry))
             := [Some Sample.paris] ]}
          (Sample.provider (Sample.ok [])) Sample.ipDatabase 1600000000.

(** A world whose provider refuses every request. *)
Definition worldDenied : World :=
  mkWorld ∅ (fun _ _ => Some (mkGoogleData (Some "REQUEST_DENIED")
                                 (Some "The provided API key is invalid.") None None))
          Sample.ipDatabase 1600000000.

(** A provider result with a sublocality before and after its locality. *)
Definition rawBorough : RawResult := {|
  geometry := Some (mkLatLng (Some 40) (Some (-74)));
  formatted_address := Some "Brooklyn, NY, USA";
  place_id := Some "borough-place";
  address_components := Some
    [ mkComponent ["sublocality"; "political"] (Some "Brooklyn") (Some "Brooklyn");
      mkComponent ["locality"; "political"] (Some "New York") (Some "New York");
      mkComponent ["sublocality_level_1"; "sublocality"; "political"] (Some "Bronx") (Some "Bronx") ] |}.

(** A provider result with a sublocality and no locality. *)
Definition rawDistrict : RawResult := {|
  geometry := Some (mkLatLng (Some 48) (Some 2));
  formatted_address := Some "Montmartre, Paris, France";
  place_id := Some "district-place";
  address_components := Some
    [ mkComponent ["sublocality"; "political"] (Some "Montmartre") (Some "Montmartre");
      mkComponent ["country"; "political"] (Some "France") (Some "FR") ] |}.

(** A provider result without [geometry]. *)
Definition rawNowhere : RawResult := {|
  geometry := None;
  formatted_address := Some "Nowhere";
  place_id := Some "nowhere-place";
  address_components := Some [] |}.

(** A query with a state and a county. *)
Definition byState : EtomonLocation :=
  set_administrativeLevel2 (Some "Kings County")
    (set_administrativeLevel1 (Some "New York") Sample.byCountry).

(** A guest's query: an IP address and a country, without geocoding. *)
Definition byIpOnly : EtomonLocation :=
  set_resolveIpWithGeo (Some false) (set_ipAddress (Some "8.8.8.8") Sample.byCountry).

(** A query with an IP address that is not in the database. *)
Definition byUnknownIp : EtomonLocation :=
  set_ipAddress (Some "10.0.0.1") Sample.byCountry.

End Fixtures.

(** * Properties *)

(** ** Safe label *)

Lemma LabelLocationSafe_object (l : EtomonLocation) :
  LabelLocationSafe (Some l) = Normal (safeLabelSpec l).
Proof.
  destruct l as [i i' loc a1 a2 c fc g r addr ip rip tz la pc cn sl].
  unfold LabelLocationSafe, LabelLocation, safeLabelSpec, or_str, present, truthy_str; simpl.
  destruct loc as [[|? ?]|], a2 as [[|? ?]|], a1 as [[|? ?]|], cn as [[|? ?]|],
    addr as [[|? ?]|]; reflexivity.
Qed.

(** C9 fails on [null]: [LabelLocation] reads [location.locality] before
    its [location &&] guard, so the safe label of [null] (or [undefined]) is
    a thrown [TypeError], not the empty string. *)
Theorem LabelLocationSafe_null_throws :
  exists e, LabelLocationSafe None = Abrupt e.
Proof. eexists. reflexivity. Qed.

(** X1: for every input that is an object, the safe-label computation does not
    throw and returns the non-empty fields among (locality, else
    administrative level 2), administrative level 1 and country name joined
    with [", "] when there is one, else the address when it is non-empty,
    else the empty string. *)
Theorem LabelLocationSafe_spec (l : EtomonLocation) :
  LabelLocationSafe (Some l) = Normal (safeLabelSpec l).
Proof. exact (LabelLocationSafe_object l). Qed.

(** ** Canonicalization and the argument object *)




(** ** Administrative levels *)

(** C8 holds only while the level numbers have one digit: the keys are
    sorted by [sort()] without a comparator, that is as strings, so for the
    levels 2 and 10 the code takes [administrativeLevel1] from level 10 and
    [administrativeLevel2] from level 2. *)
Theorem lowestLevels_sorts_keys_as_strings :
  lowestLevels [(Num 2, Some "County"); (Num 10, Some "Ward")] = [Num 10; Num 2] /\
  exists r, processRawResult None None Sample.rawLevels = Normal r /\
            r.(administrativeLevel1) = Some "Ward" /\
            r.(administrativeLevel2) = Some "County".
Proof. split; [reflexivity|]. eexists. repeat split. Qed.

(** ** Cache key *)

Section CacheKey.
Variable f : string -> option PropValue.




End CacheKey.






(** ** Runs of composed generators *)

Lemma with_store_same (w : World) : with_store w w.(store) = w.
Proof. destruct w; reflexivity. Qed.

Lemma prepend_nil {R : Type} (r : Run R) : prepend [] r = r.
Proof. destruct r; reflexivity. Qed.

Lemma prepend_app {R : Type} (t t' : list Event) (r : Run R) :
  prepend t (prepend t' r) = prepend (t ++ t') r.
Proof. unfold prepend; simpl. rewrite app_assoc. reflexivity. Qed.

(** A run of [m ;; f] is a run of [m] followed, when [m] returns, by a run of
    [f] in the store [m] left. *)
Lemma run_bind {A B : Type} consume (m : Gen A) (f : A -> Gen B) (w : World) :
  run consume w (bind m f) =
    match (run consume w m).(outcome) with
    | Normal a =>
      prepend (run consume w m).(trace)
              (run consume (with_store w (run consume w m).(final)) (f a))
    | Abrupt e => mkRun (run consume w m).(trace) (Abrupt e) (run consume w m).(final)
    end.
Proof.
  revert w. induction m as [r|e|y k IH|key k IH|key v k IH|api qs k IH|ip k IH|k IH];
    intros w; simpl.
  - rewrite with_store_same, prepend_nil. reflexivity.
  - reflexivity.
  - rewrite IH. destruct (outcome (run consume w (k (consume y)))); reflexivity.
  - rewrite IH. destruct (outcome (run consume w (k (store w !! key)))); reflexivity.
  - rewrite IH. destruct (outcome (run consume _ k)); reflexivity.
  - rewrite IH. destruct (outcome (run consume w (k (google w api qs)))); reflexivity.
  - rewrite IH. destruct (outcome (run consume w (k (geoip w ip)))); reflexivity.
  - rewrite IH. destruct (outcome (run consume w (k (clock w)))); reflexivity.
Qed.

Lemma run_bind_ext {A B : Type} consume (m : Gen A) (f g : A -> Gen B) (w : World) :
  (forall a w', w'.(google) = w.(google) -> w'.(geoip) = w.(geoip) -> w'.(clock) = w.(clock) ->
                run consume w' (f a) = run consume w' (g a)) ->
  run consume w (bind m f) = run consume w (bind m g).
Proof.
  intros Hfg. rewrite !run_bind.
  destruct (outcome (run consume w m)); [|reflexivity].
  rewrite Hfg; reflexivity.
Qed.

Lemma run_yield_all consume (w : World) (locs : list (option EtomonLocation)) :
  run consume w (yield_all locs) = mkRun (map EYield locs) (Normal tt) w.(store).
Proof.
  induction locs as [|loc locs IH]; simpl; [reflexivity|].
  rewrite IH. reflexivity.
Qed.

(** Stopping at the first record: the requests made are those before the
    first yield of the full run, whatever the consumers do. *)
Lemma run_first_of consume consume' (w : World) (g : Gen unit) :
  (run consume' w (first_of g)).(trace) = before_first_yield (run consume w g).(trace) /\
  (run consume' w (first_of g)).(outcome) =
    match yields (run consume w g) with
    | y :: _ => Normal y
    | [] => match (run consume w g).(outcome) with
            | Normal _ => Normal None
            | Abrupt e => Abrupt e
            end
    end.
Proof.
  revert w. induction g as [r|e|y k IH|key k IH|key v k IH|api qs k IH|ip k IH|k IH];
    intros w; simpl; try (split; reflexivity).
  - destruct (IH (store w !! key) w) as [Ht Ho]. split; [f_equal; exact Ht|exact Ho].
  - destruct (IH (with_store w (<[key:=v]> (store w)))) as [Ht Ho].
    split; [f_equal; exact Ht|exact Ho].
  - destruct (IH (google w api qs) w) as [Ht Ho]. split; [f_equal; exact Ht|exact Ho].
  - destruct (IH (geoip w ip) w) as [Ht Ho]. split; [f_equal; exact Ht|exact Ho].
  - destruct (IH (clock w) w) as [Ht Ho]. split; [f_equal; exact Ht|exact Ho].
Qed.

(** ** Single-result resolution *)

(** C1, as stated, fails: [GeoResolver.resolveOneLocation] takes the first
    record of the cascade [resolveLocation], not of [resolveLocations].  For
    [{country: "US"}] it returns the provider's record as the cascade yields
    it, while the first record of [resolveLocations] went through enrichment
    and [locationFromQuery]. *)
Lemma resolveOneLocation_is_not_aggregated :
  exists a b,
    (run (fun y => y) Sample.world
         (resolveOneLocation Sample.externals Sample.noCache (Some Sample.byCountry))).(outcome)
      = Normal (Some a) /\
    yields (run (fun y => y) Sample.world
                (resolveLocations Sample.externals Sample.noCache (Some Sample.byCountry)))
      = [Some b] /\
    a.(timezone) = None /\ b.(timezone) = Some "America/Chicago" /\
    a.(safeLabel) = None /\ b.(safeLabel) = Some "United States".
Proof.
  do 2 eexists.
  split; [vm_compute; reflexivity|].
  split; [vm_compute; reflexivity|].
  repeat split.
Qed.

(** C1 (amended): [GeoResolver.resolveOneLocation(input)] returns the first
    record the cascade [resolveLocation(input)] yields ([null] when it yields
    none, the cascade's error when it throws before yielding), without
    deduplication, enrichment or a read of the aggregate cache entry, and it
    makes exactly the requests the cascade makes before its first yield.  The
    RPC handler's [resolveOneLocation] stands in the same relation to
    [resolveLocations]. *)
Theorem resolveOneLocation_first_of_cascade (E : Externals) (O : GeoResolverOptions)
    consume consume' (w : World) (input : option EtomonLocation) :
  let one := run consume' w (resolveOneLocation E O input) in
  let all := run consume w (resolveLocation E O input) in
  let rpc_one := run consume' w (rpcResolveOneLocation E O input) in
  let rpc_all := run consume w (resolveLocations E O input) in
  (one.(trace) = before_first_yield all.(trace) /\
   one.(outcome) = match yields all with
                   | y :: _ => Normal y
                   | [] => match all.(outcome) with
                           | Normal _ => Normal None
                           | Abrupt e => Abrupt e
                           end
                   end) /\
  (rpc_one.(trace) = before_first_yield rpc_all.(trace) /\
   rpc_one.(outcome) = match yields rpc_all with
                       | y :: _ => Normal y
                       | [] => match rpc_all.(outcome) with
                               | Normal _ => Normal None
                               | Abrupt e => Abrupt e
                               end
                       end).
Proof.
  cbv zeta. split; apply run_first_of.
Qed.

(** ** Cache hits in the cascade *)

Lemma branchGuard_priorityField (query result : EtomonLocation)
    (priority : LocationResolvePriorities) :
  branchGuard query result priority = true -> priorityField query priority = true.
Proof.
  destruct priority; simpl; intros H; try discriminate;
    try (apply andb_true_iff in H as [H _]; exact H).
  apply andb_true_iff in H as [H _]. apply bool_decide_eq_true in H.
  apply bool_decide_eq_true. destruct (location query); [eauto|].
  destruct H as [? H]; discriminate.
Qed.

Lemma fromCacheOr_hit (E : Externals) (O : GeoResolverOptions) consume (w : World)
    (q : EtomonLocation) (live next : Gen unit) (locs : list (option EtomonLocation)) :
  O.(cache) = true ->
  w.(store) !! cacheKey E (Some q) = Some locs ->
  locs <> [] ->
  run consume w (fromCacheOr E O q live next)
  = mkRun ([ECacheGet (cacheKey E (Some q)); ECacheGet (cacheKey E (Some q))] ++ map EYield locs)
          (Normal tt) w.(store).
Proof.
  intros Hcache Hstore Hne.
  unfold fromCacheOr, getLocationsFromCacheCount, getLocationsFromCache.
  rewrite Hcache; simpl. rewrite Hstore; simpl.
  destruct locs as [|loc locs]; [contradiction|]. simpl.
  rewrite Hstore; simpl. rewrite run_yield_all. reflexivity.
Qed.

Lemma fromCacheOr_miss (E : Externals) (O : GeoResolverOptions) consume (w : World)
    (q : EtomonLocation) (live next : Gen unit) :
  (O.(cache) = true -> default [] (w.(store) !! cacheKey E (Some q)) = []) ->
  run consume w (fromCacheOr E O q live next)
  = prepend (if O.(cache) then [ECacheGet (cacheKey E (Some q))] else [])
            (run consume w (live ;;; next)).
Proof.
  intros Hmiss.
  unfold fromCacheOr, getLocationsFromCacheCount, getLocationsFromCache.
  destruct (cache O); simpl.
  - rewrite Hmiss by reflexivity. reflexivity.
  - rewrite prepend_nil. reflexivity.
Qed.

(** The step of the loop at a strategy whose branch is taken. *)
Lemma resolveLocationLoop_branch (E : Externals) (O : GeoResolverOptions)
    (query result : EtomonLocation) (priority : LocationResolvePriorities)
    (rest : list LocationResolvePriorities) (q : EtomonLocation) :
  branchGuard query result priority = true ->
  probe query priority = Some q ->
  resolveLocationLoop E O query (priority :: rest) result
  = fromCacheOr E O q (strategy E result priority) (resolveLocationLoop E O query rest result).
Proof.
  intros Hguard Hprobe. simpl.
  rewrite (branchGuard_priorityField _ _ _ Hguard), Hguard, Hprobe.
  rewrite andb_false_r. simpl.
  destruct priority; try reflexivity; discriminate.
Qed.

(** C3: when the branch of a strategy is taken and its narrow cache probe
    holds at least one record, the cascade reads the entry (once to count,
    once to yield), yields the cached records in order and ends: the run has
    no provider request and does not depend on the rest of the priority
    list. *)
Theorem cache_hit_ends_cascade (E : Externals) (O : GeoResolverOptions) consume (w : World)
    (query result : EtomonLocation) (priority : LocationResolvePriorities)
    (rest : list LocationResolvePriorities) (q : EtomonLocation)
    (locs : list (option EtomonLocation)) :
  O.(cache) = true ->
  branchGuard query result priority = true ->
  probe query priority = Some q ->
  w.(store) !! cacheKey E (Some q) = Some locs ->
  locs <> [] ->
  run consume w (resolveLocationLoop E O query (priority :: rest) result)
  = mkRun ([ECacheGet (cacheKey E (Some q)); ECacheGet (cacheKey E (Some q))] ++ map EYield locs)
          (Normal tt) w.(store).
Proof.
  intros Hcache Hguard Hprobe Hstore Hne.
  rewrite (resolveLocationLoop_branch E O _ _ _ _ q Hguard Hprobe).
  apply fromCacheOr_hit; assumption.
Qed.


(** The locality-only query with its narrow entry in the cache: two reads of
    the entry, the cached record, and nothing else. *)
Lemma cache_hit_ends_cascade_witness :
  run (fun y => y) Sample.worldCached
      (resolveLocation Sample.externals Sample.withCache (Some Sample.byLocality))
  = mkRun [ ECacheGet (cacheKey Sample.externals (Some Sample.byLocality));
            ECacheGet (cacheKey Sample.externals (Some Sample.byLocality));
            EYield (Some Sample.paris) ]
          (Normal tt) Sample.worldCached.(store).
Proof.
  apply (cache_hit_ends_cascade Sample.externals Sample.withCache (fun y => y)
           Sample.worldCached (canonicalQuery Sample.externals Sample.byLocality)
           Sample.byLocality P_locality
           [P_administrativeLevel1; P_administrativeLevel2; P_country]
           Sample.byLocality [Some Sample.paris]).
  - reflexivity.
  - vm_compute; reflexivity.
  - vm_compute; reflexivity.
  - vm_compute; reflexivity.
  - discriminate.
Defined.

(** ** The identifier strategy *)

(** C2, as stated, fails for a live lookup: for [{id: "X", country: "US"}]
    and no cache, the identifier strategy yields the provider's record for
    the place id, and the cascade then goes on to the country strategy, which
    issues an address-components request and yields a second record. *)
Lemma id_lookup_does_not_end_cascade :
  let r := run (fun y => y) Sample.world
               (resolveLocation Sample.externals Sample.noCache (Some Sample.byIdAndCountry)) in
  filter (fun e => bool_decide (is_fetch e = true)) r.(trace)
  = [ EFetch "geocode" [("place_id", Some "X")];
      EFetch "geocode" [("region", Some "us"); ("components", Some "country:US")] ]
  /\ map (fun y => y ≫= id) (yields r) = [Some "X"; Some "US-place"].
Proof. split; vm_compute; reflexivity. Qed.

(** C2 (amended): when the identifier strategy runs, the cascade ends after
    it only on a cache hit: if the narrow probe [{_id: id}] holds records,
    they are yielded and the cascade ends; if not (no cache, no entry, or an
    empty entry), the records of the live place-id lookup are yielded and,
    when that lookup returns, the cascade goes on with the rest of the
    priority list. *)
Theorem id_strategy_ends_only_on_cache_hit (E : Externals) (O : GeoResolverOptions)
    consume (w : World) (query result : EtomonLocation)
    (rest : list LocationResolvePriorities) :
  branchGuard query result P_id = true ->
  let q := set__id query.(id) emptyLocation in
  (forall locs,
     O.(cache) = true -> w.(store) !! cacheKey E (Some q) = Some locs -> locs <> [] ->
     run consume w (resolveLocationLoop E O query (P_id :: rest) result)
     = mkRun ([ECacheGet (cacheKey E (Some q)); ECacheGet (cacheKey E (Some q))]
                ++ map EYield locs) (Normal tt) w.(store)) /\
  (forall t s,
     (O.(cache) = true -> default [] (w.(store) !! cacheKey E (Some q)) = []) ->
     run consume w (resolveLocationByPlaceId E result) = mkRun t (Normal tt) s ->
     run consume w (resolveLocationLoop E O query (P_id :: rest) result)
     = prepend ((if O.(cache) then [ECacheGet (cacheKey E (Some q))] else []) ++ t)
               (run consume (with_store w s) (resolveLocationLoop E O query rest result))).
Proof.
  intros Hguard q.
  rewrite (resolveLocationLoop_branch E O _ _ _ _ q Hguard eq_refl).
  split.
  - intros locs Hcache Hstore Hne. apply fromCacheOr_hit; assumption.
  - intros t s Hmiss Hlive.
    rewrite fromCacheOr_miss by exact Hmiss.
    rewrite run_bind. simpl strategy. rewrite Hlive. simpl.
    rewrite prepend_app. reflexivity.
Qed.

Lemma id_strategy_ends_only_on_cache_hit_witness :
  exists t,
    run (fun y => y) Sample.world
        (resolveLocationLoop Sample.externals Sample.noCache
           (canonicalQuery Sample.externals Sample.byIdAndCountry)
           [P_id; P_country] Sample.byIdAndCountry)
    = prepend t
        (run (fun y => y) Sample.world
           (resolveLocationLoop Sample.externals Sample.noCache
              (canonicalQuery Sample.externals Sample.byIdAndCountry)
              [P_country] Sample.byIdAndCountry)).
Proof.
  eexists.
  refine (proj2 (id_strategy_ends_only_on_cache_hit Sample.externals Sample.noCache
                   (fun y => y) Sample.world
                   (canonicalQuery Sample.externals Sample.byIdAndCountry)
                   Sample.byIdAndCountry [P_country] _) _ ∅ _ _).
  - vm_compute; reflexivity.
  - discriminate.
  - vm_compute; reflexivity.
Defined.

(** ** The IP address strategy *)

(** A loop over strategies none of whose branches is taken yields nothing. *)
Lemma resolveLocationLoop_no_branch (E : Externals) (O : GeoResolverOptions)
    (query result : EtomonLocation) (priorities : list LocationResolvePriorities) :
  (forall p, p ∈ priorities -> branchGuard query result p = false) ->
  resolveLocationLoop E O query priorities result = Ret tt.
Proof.
  induction priorities as [|p ps IH]; intros Hno; [reflexivity|].
  simpl. rewrite (Hno p) by apply list_elem_of_here. simpl.
  rewrite IH by (intros p' Hp'; apply Hno, list_elem_of_further, Hp').
  destruct (_ && _); reflexivity.
Qed.





(** ** Enrichment and a missing time zone *)

(** C4 fails where the timezone service answers [OK] without a [timeZoneId]:
    [getTimezone] returns [null], the variable [result] becomes [null], and
    after the swallowed [TypeError] the generator yields
    [locationFromQuery(null)], that is [null], in place of the record the
    cascade produced for [{country: "US"}]. *)
Theorem missing_timeZoneId_loses_record :
  map (fun y => y ≫= id)
      (yields (run (fun y => y) Sample.worldNoZone
                   (resolveLocation Sample.externals Sample.noCache (Some Sample.byCountry))))
  = [Some "US-place"] /\
  (run (fun y => y) Sample.worldNoZone
       (resolveLocationsInner Sample.externals Sample.noCache (Some Sample.byCountry))).(trace)
  = [ EFetch "geocode" [("region", Some "us"); ("components", Some "country:US")];
      EDateNow;
      EFetch "timezone" [("location", Some "38,-97"); ("timestamp", Some "1600000000")];
      EYield None ].
Proof. split; vm_compute; reflexivity. Qed.

(** ** Deduplication *)

Section Deduplication.
Variable E : Externals.
Variable consume : option EtomonLocation -> option EtomonLocation.
Variable P : gset (option string) -> Prop.
Hypothesis P_grows : forall i B, P B -> P ({[ i ]} ∪ B).

(** Two sequences that are aggregated alike stay so behind a common first
    record. *)
Lemma aggregate_cons (x : option EtomonLocation) (l l' : list (option EtomonLocation)) :
  (forall B w, P B ->
     run consume w (aggregate E (yield_all l) B) = run consume w (aggregate E (yield_all l') B)) ->
  forall B w, P B ->
    run consume w (aggregate E (yield_all (x :: l)) B)
    = run consume w (aggregate E (yield_all (x :: l')) B).
Proof.
  intros Hll B w HB. destruct x as [x|]; [|reflexivity].
  simpl. destruct (bool_decide (id x ∈ B)); [apply Hll; exact HB|].
  apply run_bind_ext. intros r w' _ _ _.
  destruct (locationFromQuery E r); [|reflexivity].
  simpl. f_equal. apply Hll. apply P_grows. exact HB.
Qed.

Lemma aggregate_app (pre l l' : list (option EtomonLocation)) :
  (forall B w, P B ->
     run consume w (aggregate E (yield_all l) B) = run consume w (aggregate E (yield_all l') B)) ->
  forall B w, P B ->
    run consume w (aggregate E (yield_all (pre ++ l)) B)
    = run consume w (aggregate E (yield_all (pre ++ l')) B).
Proof.
  intros Hll. induction pre as [|x pre IH]; [exact Hll|].
  simpl app. apply aggregate_cons. exact IH.
Qed.

End Deduplication.

Lemma aggregate_seen (E : Externals) (consume : option EtomonLocation -> option EtomonLocation) (r : EtomonLocation)
    (l1 l2 : list (option EtomonLocation)) (B : gset (option string)) (w : World) :
  r.(id) ∈ B ->
  run consume w (aggregate E (yield_all (l1 ++ Some r :: l2)) B)
  = run consume w (aggregate E (yield_all (l1 ++ l2)) B).
Proof.
  revert B w.
  apply (aggregate_app E consume (fun B => r.(id) ∈ B)).
  - intros i B HB. set_solver.
  - intros B w HB. simpl. rewrite bool_decide_eq_true_2 by exact HB. reflexivity.
Qed.

Lemma aggregate_same_id (E : Externals) (consume : option EtomonLocation -> option EtomonLocation) (r0 r : EtomonLocation)
    (pre mid post : list (option EtomonLocation)) (B : gset (option string)) (w : World) :
  r.(id) = r0.(id) ->
  run consume w (aggregate E (yield_all (pre ++ Some r0 :: mid ++ Some r :: post)) B)
  = run consume w (aggregate E (yield_all (pre ++ Some r0 :: mid ++ post)) B).
Proof.
  intros Hid. revert B w.
  assert (Hgo : forall B w, True ->
    run consume w (aggregate E (yield_all (pre ++ Some r0 :: mid ++ Some r :: post)) B)
    = run consume w (aggregate E (yield_all (pre ++ Some r0 :: mid ++ post)) B)).
  { apply (aggregate_app E consume (fun _ => True)); [auto|].
    intros B w _. simpl.
    destruct (bool_decide (id r0 ∈ B)) eqn:Hin.
    - apply aggregate_seen. rewrite Hid. apply bool_decide_eq_true in Hin. exact Hin.
    - apply run_bind_ext. intros r' w' _ _ _.
      destruct (locationFromQuery E r'); [|reflexivity].
      simpl. f_equal. apply aggregate_seen. rewrite Hid. set_solver. }
  intros B w. apply Hgo. exact I.
Qed.





(** The same through [resolveLocationsInner]: the narrow entry of the
    locality-only query holds two records without [id], [null] and a record
    with an [id]; only the first record comes out. *)
Example resolveLocationsInner_cached_duplicates :
  map (fun y => y ≫= locality)
    (yields (run (fun y => y)
               (with_store Sample.worldCached
                  {[ cacheKey Sample.externals (Some Sample.byLocality)
                     := [Some Sample.anonymous1; Some Sample.anonymous2; None;
                         Some Sample.named] ]})
               (resolveLocationsInner Sample.externals Sample.withCache
                  (Some Sample.byLocality))))
  = [Some "Paris"].
Proof. vm_compute. reflexivity. Qed.

(** ** Canonicalization: idempotence and round trip *)

Lemma locationFromQuery_object (E : Externals) (r : EtomonLocation) :
  exists out, locationFromQuery E (Some r) = Normal (Some out).
Proof.
  unfold locationFromQuery. rewrite LabelLocationSafe_object. eexists. reflexivity.
Qed.

(** X2: [locationFromQuery] is idempotent and never throws. *)
Theorem locationFromQuery_idempotent (E : Externals) (input : option EtomonLocation) :
  match locationFromQuery E input with
  | Normal out => locationFromQuery E out = Normal out
  | Abrupt _ => False
  end.
Proof.
  destruct input as [r|]; [|reflexivity].
  unfold locationFromQuery. rewrite !LabelLocationSafe_object.
  destruct r as [i i' loc a1 a2 c fc g rg addr ip rip tz la pc cn sl]; simpl.
  destruct g as [[co ma mi ty]|]; reflexivity.
Qed.

(** X3, round trip: the query of the record of [r] keeps the locality, the
    administrative levels, the country, the address and the coordinates of
    [r] (the pair is not reordered), and its identifier is [r._id || r.id]. *)
Theorem round_trip_keeps_shared_fields (E : Externals) (r : EtomonLocation) :
  match locationFromQuery E (Some r) with
  | Normal (Some out) =>
    let q := canonicalQuery E out in
    q.(locality) = r.(locality) /\
    q.(administrativeLevel1) = r.(administrativeLevel1) /\
    q.(administrativeLevel2) = r.(administrativeLevel2) /\
    q.(country) = r.(country) /\
    q.(address) = r.(address) /\
    (q.(location) ≫= coordinates) = (r.(location) ≫= coordinates) /\
    q.(id) = or_str r.(_id) r.(id)
  | _ => False
  end.
Proof.
  unfold locationFromQuery. rewrite LabelLocationSafe_object.
  destruct r as [i i' loc a1 a2 c fc g rg addr ip rip tz la pc cn sl]; simpl.
  repeat split. destruct g as [[[co|] ma mi ty]|]; reflexivity.
Qed.

Lemma toLowerCase_idempotent (s : string) : toLowerCase (toLowerCase s) = toLowerCase s.
Proof.
  induction s as [|c s IH]; [reflexivity|]. simpl. rewrite IH. f_equal.
  unfold lower_ascii.
  destruct ((65 <=? nat_of_ascii c)%nat && (nat_of_ascii c <=? 90)%nat) eqn:Hc.
  - apply andb_true_iff in Hc as [H1 H2].
    apply Nat.leb_le in H1, H2.
    rewrite nat_ascii_embedding by lia.
    replace ((65 <=? nat_of_ascii c + 32)%nat && (nat_of_ascii c + 32 <=? 90)%nat) with false; [reflexivity|].
    symmetry. apply andb_false_iff. right. apply Nat.leb_gt. lia.
  - rewrite Hc. reflexivity.
Qed.

Lemma toLowerCase_empty (s : string) : String.eqb (toLowerCase s) "" = String.eqb s "".
Proof. destruct s; reflexivity. Qed.

(** X4: [queryFromLocation] is idempotent, so the key of an input is the key of
    its canonical query. *)
Theorem canonicalQuery_idempotent (E : Externals) (l : EtomonLocation) :
  canonicalQuery E (canonicalQuery E l) = canonicalQuery E l /\
  cacheKey E (queryFromLocation E (Some l)) = cacheKey E (Some l).
Proof.
  assert (H : canonicalQuery E (canonicalQuery E l) = canonicalQuery E l).
  { destruct l as [i i' loc a1 a2 c fc g rg addr ip rip tz la pc cn sl].
    unfold canonicalQuery; simpl. f_equal.
    - unfold or_str. destruct (truthy_str i') eqn:H1; rewrite ?H1; [reflexivity|].
      destruct (truthy_str i) eqn:H2; rewrite ?H2; reflexivity.
    - unfold or_str. destruct (truthy_str i') eqn:H1; rewrite ?H1; [reflexivity|].
      destruct (truthy_str i) eqn:H2; rewrite ?H2; reflexivity.
    - destruct g as [[[co|] ma mi ty]|]; simpl; try reflexivity.
      do 2 f_equal.
      + destruct (truthy_num ma) eqn:H1; simpl; [|reflexivity].
        destruct ma as [m|]; simpl in *; [|discriminate]. rewrite H1. reflexivity.
      + destruct (truthy_num mi) eqn:H1; simpl; [|reflexivity].
        destruct mi as [m|]; simpl in *; [|discriminate]. rewrite H1. reflexivity.
    - destruct rg as [rg|]; simpl.
      + destruct (String.eqb rg "") eqn:H1; simpl.
        * rewrite H1. reflexivity.
        * rewrite toLowerCase_empty, H1. simpl. rewrite toLowerCase_idempotent. reflexivity.
      + destruct c as [c|]; simpl; [|reflexivity].
        destruct (String.eqb c "") eqn:H1; simpl; [reflexivity|].
        destruct (byIso E c) as [rg|] eqn:Hiso; simpl; [|rewrite ?H1; simpl; rewrite ?Hiso; reflexivity].
        destruct (String.eqb rg "") eqn:H2; simpl.
        * rewrite H2. reflexivity.
        * rewrite toLowerCase_empty, H2. simpl. rewrite toLowerCase_idempotent. reflexivity. }
  split; [exact H|]. unfold cacheKey; simpl. rewrite H. reflexivity.
Qed.

(** ** Administrative levels of one digit *)

Lemma ltb_one_digit (a b : N) :
  (a < 10)%N -> (b < 10)%N ->
  String.ltb (ToString (Num a)) (ToString (Num b)) = (a <? b)%N.
Proof.
  intros Ha Hb.
  assert (Hcases : forall n, (n < 10)%N ->
            n = 0%N \/ n = 1%N \/ n = 2%N \/ n = 3%N \/ n = 4%N \/
            n = 5%N \/ n = 6%N \/ n = 7%N \/ n = 8%N \/ n = 9%N) by (intros; lia).
  destruct (Hcases a Ha) as [->|[->|[->|[->|[->|[->|[->|[->|[->| ->]]]]]]]]];
  destruct (Hcases b Hb) as [->|[->|[->|[->|[->|[->|[->|[->|[->| ->]]]]]]]]];
  reflexivity.
Qed.

Lemma sort_insert_perm (x : JsNumber) (l : list JsNumber) :
  Permutation (sort_insert x l) (x :: l).
Proof.
  induction l as [|y l IH]; simpl; [reflexivity|].
  destruct (String.ltb _ _); [reflexivity|].
  rewrite IH. apply perm_swap.
Qed.

Lemma sort_insert_head (x y : JsNumber) (l : list JsNumber) :
  key_le y x -> HdRel key_le y l -> HdRel key_le y (sort_insert x l).
Proof.
  intros Hyx Hhd. destruct l as [|z l]; simpl; [constructor; exact Hyx|].
  destruct (String.ltb _ _); constructor; [exact Hyx|].
  inversion Hhd; assumption.
Qed.

Lemma sort_insert_sorted (x : JsNumber) (l : list JsNumber) :
  one_digit x -> Forall one_digit l -> Sorted key_le l -> Sorted key_le (sort_insert x l).
Proof.
  intros Hx Hl Hs. revert Hl. induction Hs as [|y l Hs IH Hhd]; intros Hl; simpl.
  - repeat constructor.
  - inversion Hl as [|? ? Hy Hl']; subst.
    destruct x as [|a]; [contradiction|]. destruct y as [|b]; [contradiction|].
    simpl in Hx, Hy. rewrite ltb_one_digit by assumption.
    destruct (N.ltb_spec a b).
    + constructor; [constructor; assumption|]. constructor. simpl. lia.
    + constructor; [apply IH; assumption|].
      apply sort_insert_head; [simpl; lia|assumption].
Qed.

Lemma sort_fold_spec (l acc : list JsNumber) :
  Forall one_digit l -> Forall one_digit acc -> Sorted key_le acc ->
  Permutation (fold_left (fun acc x => sort_insert x acc) l acc) (l ++ acc) /\
  Sorted key_le (fold_left (fun acc x => sort_insert x acc) l acc).
Proof.
  revert acc. induction l as [|x l IH]; intros acc Hl Hacc Hs; simpl; [split; auto|].
  inversion Hl as [|? ? Hx Hl']; subst.
  destruct (IH (sort_insert x acc)) as [Hp Hsorted]; auto.
  - rewrite sort_insert_perm. constructor; assumption.
  - apply sort_insert_sorted; assumption.
  - split; [|exact Hsorted].
    rewrite Hp, sort_insert_perm. symmetry. apply Permutation_middle.
Qed.

(** X5: while every level number has one digit, the string order of [sort()]
    is the numeric order: [lowestLevels] holds the two numerically lowest
    levels, lowest first. *)
Theorem lowestLevels_one_digit (adminLevelMap : AdminLevelMap) :
  Forall one_digit (map fst adminLevelMap) ->
  exists sorted,
    Permutation sorted (map fst adminLevelMap) /\
    Sorted key_le sorted /\
    lowestLevels adminLevelMap = take 2 sorted.
Proof.
  intros Hd. exists (sort (map fst adminLevelMap)).
  destruct (sort_fold_spec (map fst adminLevelMap) [] Hd) as [Hp Hs]; [constructor|constructor|].
  rewrite app_nil_r in Hp. repeat split; assumption.
Qed.

Lemma lowestLevels_one_digit_witness :
  exists sorted,
    Permutation sorted [Num 2; Num 1; Num 3] /\
    Sorted key_le sorted /\
    lowestLevels [(Num 2, Some "County"); (Num 1, Some "State"); (Num 3, Some "Town")]
    = take 2 sorted.
Proof.
  apply (lowestLevels_one_digit
           [(Num 2, Some "County"); (Num 1, Some "State"); (Num 3, Some "Town")]).
  repeat constructor.
Defined.

(** ** The cascade without a cache hit *)

Lemma run_bind_ret consume (m : Gen unit) (w : World) :
  run consume w (m ;;; Ret tt) = run consume w m.
Proof.
  rewrite run_bind. destruct (run consume w m) as [t [[]|e] s]; simpl; [|reflexivity].
  unfold prepend; simpl. rewrite app_nil_r. reflexivity.
Qed.

Lemma resolveLocationLoop_skip (E : Externals) (O : GeoResolverOptions)
    (query result : EtomonLocation) (p : LocationResolvePriorities)
    (rest : list LocationResolvePriorities) :
  branchGuard query result p = false ->
  resolveLocationLoop E O query (p :: rest) result = resolveLocationLoop E O query rest result.
Proof.
  intros Hno. simpl. rewrite Hno. simpl. destruct (_ && _); reflexivity.
Qed.

(** X6, cascade short-circuit: for a query that holds only a country, the
    default priority order and no cache, the run of the cascade is the run of
    the address-components strategy: no other strategy is invoked. *)
Theorem country_only_query (E : Externals) (O : GeoResolverOptions)
    (consume : option EtomonLocation -> option EtomonLocation) (w : World) (c : string) :
  O.(resolvePriority) = defaultResolvePriorities ->
  O.(cache) = false ->
  c <> "" ->
  run consume w (resolveLocation E O (Some (set_country (Some c) emptyLocation)))
  = run consume w (resolveLocationByAddressComponents E (set_country (Some c) emptyLocation)).
Proof.
  intros Hprio Hcache Hc. unfold resolveLocation. rewrite Hprio.
  unfold defaultResolvePriorities.
  rewrite !resolveLocationLoop_skip by reflexivity.
  rewrite (resolveLocationLoop_branch E O _ _ P_country []
             (set_country (Some c) emptyLocation)).
  - rewrite fromCacheOr_miss by (intros H; rewrite Hcache in H; discriminate).
    rewrite Hcache, prepend_nil. apply run_bind_ret.
  - destruct c as [|a c']; [contradiction|].
    simpl. apply bool_decide_eq_true_2. reflexivity.
  - reflexivity.
Qed.

Lemma country_only_query_witness :
  run (fun y => y) Sample.world (resolveLocation Sample.externals Sample.noCache (Some Sample.byCountry))
  = run (fun y => y) Sample.world (resolveLocationByAddressComponents Sample.externals Sample.byCountry).
Proof.
  apply (country_only_query Sample.externals Sample.noCache (fun y => y) Sample.world "US").
  - reflexivity.
  - reflexivity.
  - discriminate.
Defined.

(** X7: when no branch of the priority list matches the input, the cascade makes
    no request, yields nothing and returns. *)
Theorem no_matching_facet_yields_nothing (E : Externals) (O : GeoResolverOptions)
    (consume : option EtomonLocation -> option EtomonLocation) (w : World)
    (input : EtomonLocation) :
  (forall p, p ∈ O.(resolvePriority) -> branchGuard (canonicalQuery E input) input p = false) ->
  run consume w (resolveLocation E O (Some input)) = mkRun [] (Normal tt) w.(store).
Proof.
  intros Hno. unfold resolveLocation.
  rewrite resolveLocationLoop_no_branch by exact Hno. reflexivity.
Qed.

Lemma no_matching_facet_yields_nothing_witness :
  run (fun y => y) Sample.world (resolveLocation Sample.externals Sample.noCache (Some emptyLocation))
  = mkRun [] (Normal tt) Sample.world.(store).
Proof.
  apply no_matching_facet_yields_nothing.
  intros p _. destruct p; reflexivity.
Defined.

(** ** Enrichment errors *)

(** Running a call whose completion is turned into a value. *)
Lemma run_reify {A : Type} consume (m : Gen A) (w : World) :
  run consume w (try_catch (r <- m ;; Ret (Normal r)) (fun err => Ret (Abrupt err)))
  = mkRun (run consume w m).(trace) (Normal (run consume w m).(outcome))
          (run consume w m).(final).
Proof.
  revert w. induction m as [r|e|y k IH|key k IH|key v k IH|api qs k IH|ip k IH|k IH];
    intros w; simpl; try reflexivity; rewrite IH; reflexivity.
Qed.

(** X8: when [getTimezone] throws (no coordinates, the request fails, or the
    status is not [OK]), the error is swallowed: after the requests of
    [getTimezone] the record is yielded as [locationFromQuery] leaves it,
    country information is not attempted, and the aggregation goes on. *)
Theorem thrown_timezone_error_is_swallowed (E : Externals)
    (consume : option EtomonLocation -> option EtomonLocation) (w : World)
    (r : EtomonLocation) (k : option EtomonLocation -> Gen unit)
    (B : gset (option string)) (e : Err) :
  r.(timezone) = None ->
  r.(id) ∉ B ->
  (run consume w (getTimezone E r None)).(outcome) = Abrupt e ->
  exists out,
    locationFromQuery E (Some r) = Normal (Some out) /\
    run consume w (aggregate E (Yield (Some r) k) B)
    = prepend ((run consume w (getTimezone E r None)).(trace) ++ [EYield (Some out)])
        (run consume (with_store w (run consume w (getTimezone E r None)).(final))
             (aggregate E (k (consume (Some out))) ({[ r.(id) ]} ∪ B))).
Proof.
  intros Htz HB He.
  destruct (locationFromQuery_object E r) as [out Hout].
  exists out. split; [exact Hout|].
  simpl. rewrite bool_decide_eq_false_2 by exact HB.
  unfold enrich. rewrite Htz.
  rewrite run_bind, run_bind, run_reify.
  cbn [outcome trace final]. rewrite He.
  cbn [run outcome trace final prepend].
  rewrite Hout. cbn [run outcome trace final prepend after].
  unfold prepend, after; cbn [outcome trace final].
  rewrite app_nil_r, <- app_assoc. reflexivity.
Qed.

Lemma thrown_timezone_error_is_swallowed_witness :
  exists out,
    locationFromQuery Sample.externals (Some Sample.placed) = Normal (Some out) /\
    run (fun y => y) Sample.worldZoneDown
        (aggregate Sample.externals (yield_all [Some Sample.placed]) ∅)
    = mkRun [ EDateNow;
              EFetch "timezone" [("location", Some "48,2"); ("timestamp", Some "1600000000")];
              EYield (Some out) ]
            (Normal tt) ∅.
Proof.
  destruct (thrown_timezone_error_is_swallowed Sample.externals (fun y => y)
              Sample.worldZoneDown Sample.placed (fun _ => Ret tt) ∅
              (LocationQueryError (Some (canonicalQuery Sample.externals Sample.placed)) FetchError))
    as [out [Hout Hrun]].
  - reflexivity.
  - apply not_elem_of_empty.
  - vm_compute; reflexivity.
  - exists out. split; [exact Hout|]. simpl yield_all. rewrite Hrun. vm_compute. reflexivity.
Defined.

(** ** Deduplication by identifier *)

(** X9, deduplication: a record whose [id] was seen on an earlier record of the
    sequence is dropped; the first occurrence wins. *)
Theorem later_record_with_seen_id_is_dropped (E : Externals)
    (consume : option EtomonLocation -> option EtomonLocation) (w : World)
    (r0 r : EtomonLocation) (pre mid post : list (option EtomonLocation)) :
  r.(id) = r0.(id) ->
  run consume w (aggregate E (yield_all (pre ++ Some r0 :: mid ++ Some r :: post)) ∅)
  = run consume w (aggregate E (yield_all (pre ++ Some r0 :: mid ++ post)) ∅).
Proof. apply aggregate_same_id. Qed.

Lemma later_record_with_seen_id_is_dropped_witness :
  run (fun y => y) Sample.world
      (aggregate Sample.externals
         (yield_all [Some Sample.named; Some Sample.anonymous1;
                     Some (set_locality (Some "Potsdam") Sample.named)]) ∅)
  = run (fun y => y) Sample.world
        (aggregate Sample.externals (yield_all [Some Sample.named; Some Sample.anonymous1]) ∅).
Proof.
  exact (later_record_with_seen_id_is_dropped Sample.externals (fun y => y) Sample.world
           Sample.named (set_locality (Some "Potsdam") Sample.named)
           [] [Some Sample.anonymous1] [] eq_refl).
Defined.

(** ** Which requests a generator makes *)

Lemma requests_only_weaken {R : Type} (allowed allowed' : RequestKind -> bool) (g : Gen R) :
  (forall k, allowed k = true -> allowed' k = true) ->
  requests_only allowed g -> requests_only allowed' g.
Proof.
  intros Hsub. induction g as [r|e|y k IH|key k IH|key v k IH|api qs k IH|ip k IH|k IH];
    simpl; try tauto.
  - intros H back. apply IH, H.
  - intros [Ha H]. split; [auto|]. intros r. apply IH, H.
  - intros [Ha H]. split; auto.
  - intros [Ha H]. split; [auto|]. intros r. apply IH, H.
  - intros [Ha H]. split; [auto|]. intros r. apply IH, H.
  - intros [Ha H]. split; [auto|]. intros r. apply IH, H.
Qed.

Lemma requests_only_bind {A B : Type} (allowed : RequestKind -> bool)
    (m : Gen A) (f : A -> Gen B) :
  requests_only allowed m -> (forall a, requests_only allowed (f a)) ->
  requests_only allowed (bind m f).
Proof.
  intros Hm Hf. induction m as [r|e|y k IH|key k IH|key v k IH|api qs k IH|ip k IH|k IH];
    simpl in *; auto.
  - destruct Hm as [Ha Hm]. split; auto.
  - destruct Hm as [Ha Hm]. split; auto.
  - destruct Hm as [Ha Hm]. split; auto.
  - destruct Hm as [Ha Hm]. split; auto.
  - destruct Hm as [Ha Hm]. split; auto.
Qed.

Lemma requests_only_try_catch {A : Type} (allowed : RequestKind -> bool)
    (m : Gen A) (h : Err -> Gen A) :
  requests_only allowed m -> (forall e, requests_only allowed (h e)) ->
  requests_only allowed (try_catch m h).
Proof.
  intros Hm Hh. induction m as [r|e|y k IH|key k IH|key v k IH|api qs k IH|ip k IH|k IH];
    simpl in *; auto.
  - destruct Hm as [Ha Hm]. split; auto.
  - destruct Hm as [Ha Hm]. split; auto.
  - destruct Hm as [Ha Hm]. split; auto.
  - destruct Hm as [Ha Hm]. split; auto.
  - destruct Hm as [Ha Hm]. split; auto.
Qed.

Lemma requests_only_yield_all (allowed : RequestKind -> bool)
    (locs : list (option EtomonLocation)) :
  requests_only allowed (yield_all locs).
Proof. induction locs; simpl; auto. Qed.

Lemma requests_only_first_of (allowed : RequestKind -> bool) (g : Gen unit) :
  requests_only allowed g -> requests_only allowed (first_of g).
Proof.
  induction g as [r|e|y k IH|key k IH|key v k IH|api qs k IH|ip k IH|k IH];
    simpl; auto; intros [Ha H]; split; auto.
Qed.

Lemma requests_only_collecting (allowed : RequestKind -> bool) (g : Gen unit)
    (acc : list (option EtomonLocation)) :
  requests_only allowed g -> requests_only allowed (collecting g acc).
Proof.
  revert acc. induction g as [r|e|y k IH|key k IH|key v k IH|api qs k IH|ip k IH|k IH];
    intros acc; simpl; auto; intros [Ha H]; split; auto.
Qed.

Lemma requests_only_to_array (allowed : RequestKind -> bool) (g : Gen unit)
    (acc : list (option EtomonLocation)) :
  requests_only allowed g -> requests_only allowed (to_array g acc).
Proof.
  revert acc. induction g as [r|e|y k IH|key k IH|key v k IH|api qs k IH|ip k IH|k IH];
    intros acc; simpl; auto; intros [Ha H]; split; auto.
Qed.

Lemma requests_only_makeGoogleRequest (allowed : RequestKind -> bool) qs query api :
  allowed KFetch = true -> requests_only allowed (makeGoogleRequest qs query api).
Proof.
  intros Ha. simpl. split; [exact Ha|]. intros [data|]; simpl; [|exact I].
  destruct (bool_decide _); exact I.
Qed.

Lemma requests_only_processGoogleResponse (E : Externals) (allowed : RequestKind -> bool)
    result0 googleResponse :
  requests_only allowed (processGoogleResponse E result0 googleResponse).
Proof.
  unfold processGoogleResponse. destruct googleResponse as [data|]; [|exact I].
  destruct (results data) as [rawResults|]; [|exact I].
  induction rawResults as [|raw rest IH]; simpl; [exact I|].
  destruct (processRawResult _ _ raw); simpl; auto.
Qed.

Lemma requests_only_geocode (E : Externals) (allowed : RequestKind -> bool) qs query :
  allowed KFetch = true ->
  requests_only allowed
    (geocodeData <- makeGoogleRequest qs (Some query) "geocode" ;;
     processGoogleResponse E (Some query) (Some geocodeData)).
Proof.
  intros Ha. apply requests_only_bind.
  - apply requests_only_makeGoogleRequest, Ha.
  - intros data. apply requests_only_processGoogleResponse.
Qed.

Lemma requests_only_strategy (E : Externals) (allowed : RequestKind -> bool)
    (result : EtomonLocation) (priority : LocationResolvePriorities) :
  allowed KFetch = true -> requests_only allowed (strategy E result priority).
Proof.
  intros Ha.
  destruct priority; cbn [strategy]; try exact I;
    unfold resolveLocationByPlaceId, resolveLocationByLatitudeAndLongitude,
      resolveLocationByAddress, resolveLocationByAddressComponents;
    (apply requests_only_try_catch; [|intros e; exact I]);
    try (apply requests_only_geocode, Ha).
  destruct (coordinatesOf _); [|exact I]. apply requests_only_geocode, Ha.
Qed.

Lemma requests_only_ip (E : Externals) (allowed : RequestKind -> bool) (result : EtomonLocation) :
  allowed KGeoIp = true -> requests_only allowed (resolveLocationByIpAddress E result).
Proof.
  intros Ha. unfold resolveLocationByIpAddress.
  apply requests_only_try_catch; [|intros e; exact I].
  destruct (ipAddress _); [|exact I]. simpl. split; [exact Ha|].
  intros [geoRes|]; simpl; auto.
Qed.

Lemma requests_only_getLocationsFromCache (E : Externals) (O : GeoResolverOptions)
    (allowed : RequestKind -> bool) (q : EtomonLocation) :
  (O.(cache) = true -> allowed KCacheGet = true) ->
  requests_only allowed (getLocationsFromCache E O q).
Proof.
  intros Ha. unfold getLocationsFromCache. destruct (cache O); simpl; auto.
Qed.

Lemma requests_only_loop (E : Externals) (O : GeoResolverOptions)
    (query : EtomonLocation) (priorities : list LocationResolvePriorities)
    (result : EtomonLocation) :
  requests_only (cascadeRequests O) (resolveLocationLoop E O query priorities result).
Proof.
  revert result. induction priorities as [|p ps IH]; intros result; [exact I|].
  simpl. destruct (_ && _); [apply IH|].
  destruct (negb (branchGuard query result p)); [apply IH|].
  assert (Hprobe : forall q,
            requests_only (cascadeRequests O)
              (fromCacheOr E O q (strategy E result p) (resolveLocationLoop E O query ps result))).
  { intros q. unfold fromCacheOr, getLocationsFromCacheCount.
    apply requests_only_bind.
    - apply requests_only_bind; [|intros; exact I].
      apply requests_only_getLocationsFromCache. auto.
    - intros n. destruct (0 <? n)%nat.
      + apply requests_only_bind.
        * apply requests_only_getLocationsFromCache. auto.
        * intros locs. apply requests_only_yield_all.
      + apply requests_only_bind; [apply requests_only_strategy; reflexivity|].
        intros _. apply IH. }
  destruct p; simpl; try apply Hprobe; try apply IH.
  apply requests_only_bind; [apply requests_only_ip; reflexivity|].
  intros result'. destruct (negb _); [exact I|apply IH].
Qed.

Lemma requests_only_resolveLocation (E : Externals) (O : GeoResolverOptions)
    (input : option EtomonLocation) :
  requests_only (cascadeRequests O) (resolveLocation E O input).
Proof. destruct input; [apply requests_only_loop|exact I]. Qed.

Lemma requests_only_getTimezone (E : Externals) (allowed : RequestKind -> bool)
    (result : EtomonLocation) (timestamp : option Z) :
  allowed KFetch = true -> allowed KDateNow = true ->
  requests_only allowed (getTimezone E result timestamp).
Proof.
  intros Hf Hd. unfold getTimezone.
  apply requests_only_try_catch; [|intros e; exact I].
  destruct (coordinatesOf _); [|exact I].
  apply requests_only_bind.
  - destruct timestamp; simpl; auto.
  - intros t. apply requests_only_bind; [apply requests_only_makeGoogleRequest, Hf|].
    intros data. destruct (negb _); exact I.
Qed.

Lemma requests_only_enrich (E : Externals) (allowed : RequestKind -> bool)
    (result : EtomonLocation) :
  allowed KFetch = true -> allowed KDateNow = true ->
  requests_only allowed (enrich E result).
Proof.
  intros Hf Hd. unfold enrich.
  destruct (timezone result).
  - destruct (_ || _); exact I.
  - apply requests_only_bind.
    + apply requests_only_try_catch; [|intros e; exact I].
      apply requests_only_bind; [apply requests_only_getTimezone; assumption|].
      intros r; exact I.
    + intros [[r|]|e]; try exact I. destruct (_ || _); exact I.
Qed.

Lemma requests_only_aggregate (E : Externals) (allowed : RequestKind -> bool)
    (g : Gen unit) (basket : gset (option string)) :
  allowed KFetch = true -> allowed KDateNow = true ->
  requests_only allowed g -> requests_only allowed (aggregate E g basket).
Proof.
  intros Hf Hd. revert basket.
  induction g as [r|e|y k IH|key k IH|key v k IH|api qs k IH|ip k IH|k IH];
    intros basket; simpl; auto; try (intros [Ha H]; split; auto).
  intros H. destruct y as [result|]; [|exact I].
  destruct (bool_decide _); [apply IH, H|].
  apply requests_only_bind; [apply requests_only_enrich; assumption|].
  intros r. destruct (locationFromQuery E r); [|exact I].
  simpl. intros back. apply IH, H.
Qed.

Lemma requests_only_inner (E : Externals) (O : GeoResolverOptions)
    (input : option EtomonLocation) :
  requests_only (aggregateRequests O) (resolveLocationsInner E O input).
Proof.
  unfold resolveLocationsInner. apply requests_only_aggregate; try reflexivity.
  apply (requests_only_weaken (cascadeRequests O)); [|apply requests_only_resolveLocation].
  intros []; simpl; auto.
Qed.

Lemma requests_only_resolveLocations (E : Externals) (O : GeoResolverOptions)
    (input : option EtomonLocation) :
  requests_only (resolveLocationsRequests O) (resolveLocations E O input).
Proof.
  unfold resolveLocations.
  assert (Hmiss : forall useCache,
    (useCache = true -> O.(cache) = true) ->
    requests_only (resolveLocationsRequests O)
      (locs <- collecting (resolveLocationsInner E O (queryFromLocation E input)) [] ;;
       (if useCache then CachePut (cacheKey E (queryFromLocation E input)) locs (Ret tt)
        else Ret tt))).
  { intros useCache Huse. apply requests_only_bind.
    - apply requests_only_collecting.
      apply (requests_only_weaken (aggregateRequests O)); [|apply requests_only_inner].
      intros []; simpl; auto. discriminate.
    - intros locs. destruct useCache; simpl; auto. }
  destruct (cache O) eqn:Hcache.
  - destruct (queryFromLocation E input) as [q|] eqn:Hq; [|exact I].
    destruct (negb _).
    + simpl. split; [exact Hcache|]. intros [locations|].
      * apply requests_only_yield_all.
      * apply (Hmiss true). auto.
    + apply (Hmiss false). discriminate.
  - apply (Hmiss false). discriminate.
Qed.

(** What the allowed kinds say about a run. *)
Lemma run_requests_only {R : Type} (allowed : RequestKind -> bool) consume (w : World)
    (g : Gen R) :
  requests_only allowed g ->
  Forall (fun e => forall k, kind_of e = Some k -> allowed k = true) (run consume w g).(trace) /\
  (allowed KCachePut = false -> (run consume w g).(final) = w.(store)).
Proof.
  revert w. induction g as [r|e|y k IH|key k IH|key v k IH|api qs k IH|ip k IH|k IH];
    intros w; simpl.
  - intros _. split; [constructor|reflexivity].
  - intros _. split; [constructor|reflexivity].
  - intros H. destruct (IH (consume y) w (H _)) as [Ht Hs]. split; [|exact Hs].
    constructor; [intros ? [=]|exact Ht].
  - intros [Ha H]. destruct (IH (store w !! key) w (H _)) as [Ht Hs]. split; [|exact Hs].
    constructor; [intros ? [= <-]; exact Ha|exact Ht].
  - intros [Ha H]. destruct (IH (with_store w (<[key:=v]> (store w))) H) as [Ht Hs].
    split; [|intros Hno; congruence].
    constructor; [intros ? [= <-]; exact Ha|exact Ht].
  - intros [Ha H]. destruct (IH (google w api qs) w (H _)) as [Ht Hs]. split; [|exact Hs].
    constructor; [intros ? [= <-]; exact Ha|exact Ht].
  - intros [Ha H]. destruct (IH (geoip w ip) w (H _)) as [Ht Hs]. split; [|exact Hs].
    constructor; [intros ? [= <-]; exact Ha|exact Ht].
  - intros [Ha H]. destruct (IH (clock w) w (H _)) as [Ht Hs]. split; [|exact Hs].
    constructor; [intros ? [= <-]; exact Ha|exact Ht].
Qed.

(** X10: neither the cascade nor the aggregation ever writes to the cache
    or, in the cascade, asks the clock: whatever the input, the options and
    the answers, a run of [resolveLocation], [resolveOneLocation] or
    [resolveLocationsInner] leaves the store as it was; the narrow entries
    the cascade probes are never written by it. *)
Theorem cascade_and_aggregation_never_write_cache (E : Externals) (O : GeoResolverOptions)
    consume (w : World) (input : option EtomonLocation) :
  (run consume w (resolveLocation E O input)).(final) = w.(store) /\
  (run consume w (resolveOneLocation E O input)).(final) = w.(store) /\
  (run consume w (resolveLocationsInner E O input)).(final) = w.(store) /\
  Forall (fun e => kind_of e <> Some KCachePut /\ kind_of e <> Some KDateNow)
         (run consume w (resolveLocation E O input)).(trace) /\
  Forall (fun e => kind_of e <> Some KCachePut)
         (run consume w (resolveLocationsInner E O input)).(trace).
Proof.
  pose proof (requests_only_resolveLocation E O input) as Hc.
  pose proof (requests_only_inner E O input) as Hi.
  destruct (run_requests_only _ consume w _ Hc) as [Htc Hsc].
  destruct (run_requests_only _ consume w _ (requests_only_first_of _ _ Hc)) as [_ Hso].
  destruct (run_requests_only _ consume w _ Hi) as [Hti Hsi].
  repeat split; auto.
  - eapply List.Forall_impl; [|exact Htc]. simpl. intros e He.
    split; intros Hk; apply He in Hk; discriminate.
  - eapply List.Forall_impl; [|exact Hti]. simpl. intros e He Hk. apply He in Hk; discriminate.
Qed.

(** X11: without a configured cache nothing touches a cache: a run of
    [resolveLocations] has no cache read and no cache write. *)
Theorem no_cache_no_cache_requests (E : Externals) (O : GeoResolverOptions)
    consume (w : World) (input : option EtomonLocation) :
  O.(cache) = false ->
  Forall (fun e => kind_of e <> Some KCacheGet /\ kind_of e <> Some KCachePut)
         (run consume w (resolveLocations E O input)).(trace) /\
  (run consume w (resolveLocations E O input)).(final) = w.(store).
Proof.
  intros Hcache.
  destruct (run_requests_only _ consume w _ (requests_only_resolveLocations E O input))
    as [Ht Hs].
  split; [|apply Hs; simpl; exact Hcache].
  eapply List.Forall_impl; [|exact Ht]. simpl. intros e He.
  split; intros Hk; apply He in Hk; simpl in Hk; congruence.
Qed.

Lemma no_cache_no_cache_requests_witness :
  Forall (fun e => kind_of e <> Some KCacheGet /\ kind_of e <> Some KCachePut)
         (run (fun y => y) Sample.world
              (resolveLocations Sample.externals Sample.noCache (Some Sample.byCountry))).(trace).
Proof.
  exact (proj1 (no_cache_no_cache_requests Sample.externals Sample.noCache (fun y => y)
                  Sample.world (Some Sample.byCountry) eq_refl)).
Defined.

(** ** The aggregate cache entry *)

Lemma run_inner_final (E : Externals) (O : GeoResolverOptions) consume (w : World)
    (input : option EtomonLocation) :
  (run consume w (resolveLocationsInner E O input)).(final) = w.(store).
Proof.
  apply (run_requests_only _ consume w _ (requests_only_inner E O input)). reflexivity.
Qed.

Lemma run_collecting consume (w : World) (g : Gen unit) (acc : list (option EtomonLocation)) :
  run consume w (collecting g acc)
  = mkRun (run consume w g).(trace)
          (match (run consume w g).(outcome) with
           | Normal _ => Normal (acc ++ map consume (yields (run consume w g)))%list
           | Abrupt e => Abrupt e
           end)
          (run consume w g).(final).
Proof.
  revert w acc.
  induction g as [r|e|y k IH|key k IH|key v k IH|api qs k IH|ip k IH|k IH];
    intros w acc; simpl; try (rewrite IH; reflexivity).
  - rewrite app_nil_r. reflexivity.
  - reflexivity.
  - rewrite IH. unfold after, yields; simpl. f_equal.
    destruct (outcome _); [|reflexivity]. rewrite <- app_assoc. reflexivity.
Qed.

Lemma run_to_array consume (w : World) (g : Gen unit) (acc : list (option EtomonLocation)) :
  (run consume w (to_array g acc)).(outcome)
  = (match (run (fun y => y) w g).(outcome) with
     | Normal _ => Normal (acc ++ yields (run (fun y => y) w g))%list
     | Abrupt e => Abrupt e
     end) /\
  (run consume w (to_array g acc)).(trace)
  = filter (fun e => bool_decide (is_Some (kind_of e))) (run (fun y => y) w g).(trace) /\
  (run consume w (to_array g acc)).(final) = (run (fun y => y) w g).(final).
Proof.
  revert w acc.
  induction g as [r|e|y k IH|key k IH|key v k IH|api qs k IH|ip k IH|k IH];
    intros w acc; simpl.
  - rewrite app_nil_r. auto.
  - auto.
  - destruct (IH y w (acc ++ [y])%list) as (Ho & Ht & Hs).
    split; [|split]; [|exact Ht|exact Hs].
    etransitivity; [exact Ho|]. unfold yields; cbn.
    destruct (outcome (run _ w (k y))); [|reflexivity].
    rewrite <- app_assoc. reflexivity.
  - destruct (IH (store w !! key) w acc) as (Ho & Ht & Hs).
    repeat split; [exact Ho| |exact Hs]. cbn. f_equal. exact Ht.
  - destruct (IH (with_store w (<[key:=v]> (store w))) acc) as (Ho & Ht & Hs).
    repeat split; [exact Ho| |exact Hs]. cbn. f_equal. exact Ht.
  - destruct (IH (google w api qs) w acc) as (Ho & Ht & Hs).
    repeat split; [exact Ho| |exact Hs]. cbn. f_equal. exact Ht.
  - destruct (IH (geoip w ip) w acc) as (Ho & Ht & Hs).
    repeat split; [exact Ho| |exact Hs]. cbn. f_equal. exact Ht.
  - destruct (IH (clock w) w acc) as (Ho & Ht & Hs).
    repeat split; [exact Ho| |exact Hs]. cbn. f_equal. exact Ht.
Qed.

Lemma run_CacheGet {R} consume (w : World) key (k : option (list (option EtomonLocation)) -> Gen R) :
  run consume w (CacheGet key k)
  = after (ECacheGet key) (run consume w (k (w.(store) !! key))).
Proof. reflexivity. Qed.

Lemma run_resolveLocations_cached (E : Externals) (O : GeoResolverOptions) consume (w : World)
    (input : EtomonLocation) :
  O.(cache) = true ->
  run consume w (resolveLocations E O (Some input))
  = after (ECacheGet (cacheKey E (queryFromLocation E (Some input))))
      (run consume w
         (match w.(store) !! cacheKey E (queryFromLocation E (Some input)) with
          | Some locations => yield_all locations
          | None =>
            locs <- collecting (resolveLocationsInner E O (queryFromLocation E (Some input))) [] ;;
            CachePut (cacheKey E (queryFromLocation E (Some input))) locs (Ret tt)
          end)).
Proof.
  intros Hcache. unfold resolveLocations. rewrite Hcache.
  change (queryFromLocation E (Some input)) with (Some (canonicalQuery E input)) in *.
  cbv beta iota zeta.
  replace (negb (bool_decide (fromCache (canonicalQuery E input) = Some false)))
    with true by reflexivity.
  apply run_CacheGet.
Qed.

(** X12: with a cache, an aggregate entry under the key of the canonical
    query is returned as it is, an empty list included: one cache read, the
    cached records in order, no provider or IP request, no enrichment, and no
    write. *)
Theorem resolveLocations_cache_hit (E : Externals) (O : GeoResolverOptions) consume (w : World)
    (input : EtomonLocation) (locs : list (option EtomonLocation)) :
  O.(cache) = true ->
  w.(store) !! cacheKey E (queryFromLocation E (Some input)) = Some locs ->
  run consume w (resolveLocations E O (Some input))
  = mkRun (ECacheGet (cacheKey E (queryFromLocation E (Some input))) :: map EYield locs)
          (Normal tt) w.(store).
Proof.
  intros Hcache Hstore.
  rewrite (run_resolveLocations_cached E O consume w input Hcache), Hstore.
  rewrite run_yield_all. reflexivity.
Qed.

(** X13: with a cache and no entry, when the aggregation of the cascade
    returns, the list of the records yielded (as the consumer left them) is
    written under the key of the canonical query, once and last; the store
    is otherwise as before. *)
Theorem resolveLocations_cache_miss (E : Externals) (O : GeoResolverOptions) consume (w : World)
    (input : EtomonLocation) :
  O.(cache) = true ->
  w.(store) !! cacheKey E (queryFromLocation E (Some input)) = None ->
  let key := cacheKey E (queryFromLocation E (Some input)) in
  let inner := run consume w (resolveLocationsInner E O (queryFromLocation E (Some input))) in
  inner.(outcome) = Normal tt ->
  run consume w (resolveLocations E O (Some input))
  = mkRun (ECacheGet key :: (inner.(trace) ++ [ECachePut key (map consume (yields inner))])%list)
          (Normal tt) (<[key := map consume (yields inner)]> w.(store)).
Proof.
  intros Hcache Hstore key inner Hinner.
  rewrite (run_resolveLocations_cached E O consume w input Hcache), Hstore. fold key.
  rewrite run_bind, run_collecting. fold inner. cbn [outcome trace final]. rewrite Hinner.
  pose proof (run_inner_final E O consume w (queryFromLocation E (Some input))) as Hfinal.
  fold inner in Hfinal. rewrite Hfinal.
  cbn. unfold after, prepend; cbn. reflexivity.
Qed.

Lemma resolveLocations_cache_hit_witness :
  run (fun y => y) Fixtures.worldAggregate
      (resolveLocations Sample.externals Sample.withCache (Some Sample.byCountry))
  = mkRun (ECacheGet (cacheKey Sample.externals
                        (queryFromLocation Sample.externals (Some Sample.byCountry)))
           :: map EYield [Some Sample.paris])
          (Normal tt) Fixtures.worldAggregate.(store).
Proof.
  apply (resolveLocations_cache_hit Sample.externals Sample.withCache (fun y => y)
           Fixtures.worldAggregate Sample.byCountry [Some Sample.paris]).
  - reflexivity.
  - vm_compute; reflexivity.
Defined.

Lemma resolveLocations_cache_miss_witness :
  let r := run (fun y => y) Sample.world
             (resolveLocations Sample.externals Sample.withCache (Some Sample.byCountry)) in
  r.(outcome) = Normal tt /\
  r.(final) !! cacheKey Sample.externals (queryFromLocation Sample.externals (Some Sample.byCountry))
  = Some (yields r).
Proof.
  cbv zeta.
  rewrite (resolveLocations_cache_miss Sample.externals Sample.withCache (fun y => y)
             Sample.world Sample.byCountry).
  - split; [reflexivity|]. vm_compute; reflexivity.
  - reflexivity.
  - vm_compute; reflexivity.
  - vm_compute; reflexivity.
Defined.



(** X15: failures are not cached: with a cache and no entry, when the
    aggregation throws, [resolveLocations] throws the same error after the
    same events, and the store is left as it was; the records yielded before
    the error have reached the consumer all the same. *)
Theorem failed_resolution_is_not_cached (E : Externals) (O : GeoResolverOptions)
    consume (w : World) (input : EtomonLocation) (e : Err) :
  O.(cache) = true ->
  w.(store) !! cacheKey E (queryFromLocation E (Some input)) = None ->
  let inner := run consume w (resolveLocationsInner E O (queryFromLocation E (Some input))) in
  inner.(outcome) = Abrupt e ->
  run consume w (resolveLocations E O (Some input))
  = mkRun (ECacheGet (cacheKey E (queryFromLocation E (Some input))) :: inner.(trace))
          (Abrupt e) w.(store).
Proof.
  intros Hcache Hstore inner Hinner.
  rewrite (run_resolveLocations_cached E O consume w input Hcache), Hstore.
  rewrite run_bind, run_collecting. fold inner. cbn [outcome trace final]. rewrite Hinner.
  pose proof (run_inner_final E O consume w (queryFromLocation E (Some input))) as Hfinal.
  fold inner in Hfinal. rewrite Hfinal. reflexivity.
Qed.

Lemma failed_resolution_is_not_cached_witness :
  let q := Some (canonicalQuery Sample.externals Sample.byCountry) in
  run (fun y => y) Fixtures.worldDenied
      (resolveLocations Sample.externals Sample.withCache (Some Sample.byCountry))
  = mkRun [ ECacheGet (cacheKey Sample.externals
                         (queryFromLocation Sample.externals (Some Sample.byCountry)));
            ECacheGet (cacheKey Sample.externals (Some Sample.byCountry));
            EFetch "geocode" [("region", Some "us"); ("components", Some "country:US")] ]
          (Abrupt (LocationQueryError q
                     (LocationQueryError q (ErrorMessage "The provided API key is invalid."))))
          ∅.
Proof.
  cbv zeta.
  rewrite (failed_resolution_is_not_cached Sample.externals Sample.withCache (fun y => y)
             Fixtures.worldDenied Sample.byCountry
             (LocationQueryError (Some (canonicalQuery Sample.externals Sample.byCountry))
                (LocationQueryError (Some (canonicalQuery Sample.externals Sample.byCountry))
                   (ErrorMessage "The provided API key is invalid.")))).
  - vm_compute; reflexivity.
  - reflexivity.
  - reflexivity.
  - vm_compute; reflexivity.
Defined.

(** X16: the [fromCache] field of the input has no effect: canonicalization
    drops it before [resolveLocations] tests it, so the cache key, the
    aggregation and [resolveLocations] itself are the same for every value
    of the field, [false] included. *)
Theorem fromCache_field_is_ignored (E : Externals) (O : GeoResolverOptions)
    (v : option bool) (input : EtomonLocation) :
  resolveLocations E O (Some (set_fromCache v input)) = resolveLocations E O (Some input) /\
  resolveLocationsInner E O (Some (set_fromCache v input)) = resolveLocationsInner E O (Some input) /\
  cacheKey E (Some (set_fromCache v input)) = cacheKey E (Some input) /\
  (canonicalQuery E (set_fromCache v input)).(fromCache) = None.
Proof. repeat split. Qed.

Lemma run_first_of_collecting consume consume' (w : World) (g : Gen unit)
    (acc : list (option EtomonLocation)) (f : list (option EtomonLocation) -> Gen unit) :
  yields (run consume w g) <> [] ->
  run consume' w (first_of (bind (collecting g acc) f)) = run consume' w (first_of g).
Proof.
  revert w acc.
  induction g as [r|e|y k IH|key k IH|key v k IH|api qs k IH|ip k IH|k IH];
    intros w acc Hy; simpl in *; try reflexivity;
    try (unfold after; rewrite IH by exact Hy; reflexivity).
  - exfalso. apply Hy. reflexivity.
Qed.

(** X17: the RPC handler's [resolveOneLocation] does not fill the cache:
    with a cache and no entry, when the aggregation yields a record, the
    handler returns that first record after the events that precede it, and
    the aggregate entry is not written. *)
Theorem rpcResolveOneLocation_first_record (E : Externals) (O : GeoResolverOptions)
    consume (w : World) (input : EtomonLocation)
    (y : option EtomonLocation) (ys : list (option EtomonLocation)) :
  O.(cache) = true ->
  w.(store) !! cacheKey E (queryFromLocation E (Some input)) = None ->
  let inner := run consume w (resolveLocationsInner E O (queryFromLocation E (Some input))) in
  yields inner = y :: ys ->
  run consume w (rpcResolveOneLocation E O (Some input))
  = mkRun (ECacheGet (cacheKey E (queryFromLocation E (Some input)))
           :: before_first_yield inner.(trace))
          (Normal y) w.(store).
Proof.
  intros Hcache Hstore inner Hy.
  unfold rpcResolveOneLocation, resolveLocations. rewrite Hcache.
  change (queryFromLocation E (Some input)) with (Some (canonicalQuery E input)) in *.
  cbv beta iota zeta.
  replace (negb (bool_decide (fromCache (canonicalQuery E input) = Some false)))
    with true by reflexivity.
  cbn [first_of]. rewrite run_CacheGet, Hstore.
  rewrite (run_first_of_collecting consume consume w) by (fold inner; congruence).
  destruct (run_first_of consume consume w
              (resolveLocationsInner E O (Some (canonicalQuery E input)))) as [Ht Ho].
  fold inner in Ht, Ho. rewrite Hy in Ho.
  pose proof (requests_only_first_of _ _
                (requests_only_inner E O (Some (canonicalQuery E input)))) as Hr.
  destruct (run_requests_only _ consume w _ Hr) as [_ Hs].
  specialize (Hs eq_refl).
  destruct (run consume w (first_of (resolveLocationsInner E O (Some (canonicalQuery E input)))))
    as [t o s]. cbn in *. subst. reflexivity.
Qed.

Lemma rpcResolveOneLocation_first_record_witness :
  (run (fun y => y) Sample.world
       (rpcResolveOneLocation Sample.externals Sample.withCache (Some Sample.byCountry))).(final)
  = Sample.world.(store).
Proof.
  pose proof (fun y ys => rpcResolveOneLocation_first_record Sample.externals Sample.withCache
                (fun y => y) Sample.world Sample.byCountry y ys eq_refl eq_refl) as H.
  cbv zeta in H.
  destruct (yields (run (fun y => y) Sample.world
              (resolveLocationsInner Sample.externals Sample.withCache
                 (queryFromLocation Sample.externals (Some Sample.byCountry))))) as [|y ys] eqn:Hy.
  - vm_compute in Hy. discriminate.
  - rewrite (H y ys eq_refl). reflexivity.
Defined.

(** X18: the RPC handler's [resolveLocations] returns the list of the
    records that [resolveLocations] yields, in order, after the same
    requests and with the same effect on the store; when the generator
    throws, the call fails with that error and the records collected so far
    are lost. *)
Theorem rpcResolveLocations_returns_yields (E : Externals) (O : GeoResolverOptions)
    consume (w : World) (input : option EtomonLocation) :
  let r := run (fun y => y) w (resolveLocations E O input) in
  let h := run consume w (rpcResolveLocations E O input) in
  h.(outcome) = match r.(outcome) with
                | Normal _ => Normal (yields r)
                | Abrupt e => Abrupt e
                end /\
  h.(trace) = filter (fun e => bool_decide (is_Some (kind_of e))) r.(trace) /\
  h.(final) = r.(final).
Proof.
  cbv zeta. unfold rpcResolveLocations.
  destruct (run_to_array consume w (resolveLocations E O input) []) as (Ho & Ht & Hs).
  repeat split; assumption.
Qed.

(** ** Provider results *)

Lemma walkComponent_frame (st : EtomonLocation * AdminLevelMap) (c : AddressComponent)
    (a b : option string) :
  set_country a (set_locality b (fst (walkComponent st c)))
  = set_country a (set_locality b (fst st)).
Proof.
  destruct st as [r m]. unfold walkComponent.
  repeat match goal with
         | |- context [if ?x then _ else _] => destruct x
         | |- context [match filter ?f ?l with _ => _ end] => destruct (filter f l)
         end; destruct r; reflexivity.
Qed.

Lemma walk_frame (components : list AddressComponent) (st : EtomonLocation * AdminLevelMap) :
  fst (fold_left walkComponent components st)
  = set_country (fst (fold_left walkComponent components st)).(country)
      (set_locality (fst (fold_left walkComponent components st)).(locality) (fst st)).
Proof.
  revert st. induction components as [|c cs IH]; intros st; simpl.
  - destruct st as [[] m]; reflexivity.
  - rewrite (IH (walkComponent st c)) at 1. apply walkComponent_frame.
Qed.

(** X19: where the fields of a normalized provider result come from.  The
    coordinates of the query win over those of the provider, which are used
    only when the query has none (longitude first); [id] and [_id] are the
    provider's [place_id] when it is non-empty; [address] is the provider's
    formatted address when it is non-empty; the walk over the address
    components touches no field other than [locality], [country] and the
    two administrative levels. *)
Theorem processRawResult_provenance (query result0 : option EtomonLocation)
    (rawResult : RawResult) (out : EtomonLocation) :
  processRawResult query result0 rawResult = Normal out ->
  let r0 := default emptyLocation result0 in
  (exists la ln,
     rawResult.(geometry) = Some (mkLatLng (Some la) (Some ln)) /\
     out.(location)
     = Some (default (mkGeoJSON (Some (ln, la)) None None (Some "Point")) r0.(location))) /\
  out.(id) = (if truthy_str rawResult.(place_id) then rawResult.(place_id) else r0.(id)) /\
  out.(_id) = (if truthy_str rawResult.(place_id) then rawResult.(place_id) else r0.(_id)) /\
  out.(address) = (if truthy_str rawResult.(formatted_address)
                   then rawResult.(formatted_address) else r0.(address)) /\
  out.(region) = r0.(region) /\ out.(ipAddress) = r0.(ipAddress) /\
  out.(resolveIpWithGeo) = r0.(resolveIpWithGeo) /\ out.(fromCache) = r0.(fromCache) /\
  out.(timezone) = r0.(timezone) /\ out.(languages) = r0.(languages) /\
  out.(phoneCode) = r0.(phoneCode) /\ out.(countryName) = r0.(countryName) /\
  out.(safeLabel) = r0.(safeLabel).
Proof.
  intros H r0. unfold processRawResult in H. fold r0 in H.
  destruct (geometry rawResult) as [[[la|] [ln|]]|]; try discriminate.
  destruct (address_components rawResult) as [components|]; [|discriminate].
  match type of H with
  | context [fold_left walkComponent components ?st] =>
    pose proof (walk_frame components st) as Hw;
    destruct (fold_left walkComponent components st) as [r m] eqn:Hfold
  end.
  injection H as <-. cbn [fst] in Hw.
  unfold assignAdminLevels. cbv zeta.
  rewrite Hw. clear Hw Hfold.
  split.
  { exists la, ln. split; [reflexivity|].
    destruct (location r0) eqn:Hl, (truthy_str (formatted_address rawResult)),
      (truthy_str (place_id rawResult)); cbn; rewrite ?Hl; reflexivity. }
  destruct (location r0), (truthy_str (formatted_address rawResult)),
    (truthy_str (place_id rawResult)); cbn; repeat split; reflexivity.
Qed.

Lemma processRawResult_provenance_witness :
  exists out,
    processRawResult None (Some Sample.byCountry) Sample.rawPlace = Normal out /\
    out.(id) = Some "X" /\ out.(_id) = Some "X" /\
    out.(address) = Some "New York, NY, USA" /\
    out.(location) = Some (mkGeoJSON (Some (-74, 40)) None None (Some "Point")).
Proof.
  eexists. split; [vm_compute; reflexivity|].
  destruct (processRawResult_provenance None (Some Sample.byCountry) Sample.rawPlace _ eq_refl)
    as ((la & ln & Hg & Hl) & Hid & H_id & Ha & _).
  vm_compute in Hg. injection Hg as Hla Hln. subst la ln.
  split; [exact Hid|]. split; [exact H_id|]. split; [exact Ha|exact Hl].
Defined.

Lemma walkComponent_keeps_locality (st : EtomonLocation * AdminLevelMap) (c : AddressComponent) :
  includes "locality" c.(types) = false ->
  truthy_str (fst st).(locality) = true ->
  (fst (walkComponent st c)).(locality) = (fst st).(locality).
Proof.
  destruct st as [r m]. cbn [fst]. intros Hc Hl. unfold walkComponent.
  rewrite Hc, Hl, andb_false_r.
  repeat match goal with
         | |- context [if ?x then _ else _] => destruct x
         | |- context [match filter ?f ?l with _ => _ end] => destruct (filter f l)
         end; destruct r; reflexivity.
Qed.

Lemma walk_keeps_locality (components : list AddressComponent)
    (st : EtomonLocation * AdminLevelMap) :
  Forall (fun c => includes "locality" c.(types) = false) components ->
  truthy_str (fst st).(locality) = true ->
  (fst (fold_left walkComponent components st)).(locality) = (fst st).(locality).
Proof.
  intros Hall. revert st. induction Hall as [|c cs Hc _ IH]; intros st Hl; simpl.
  - reflexivity.
  - rewrite IH; rewrite walkComponent_keeps_locality by assumption; auto.
Qed.

Lemma assignAdminLevels_locality (m : AdminLevelMap) (r : EtomonLocation) :
  (assignAdminLevels m r).(locality) = r.(locality).
Proof. destruct r; reflexivity. Qed.

(** X20: the locality of a normalized provider result.  The name of the
    last component of type [locality], when it is non-empty, is the locality
    of the record, whatever the query, the components before it and the
    components of type [sublocality] after it. *)
Theorem locality_component_wins (query result0 : option EtomonLocation)
    (rawResult : RawResult) (out : EtomonLocation)
    (pre post : list AddressComponent) (c : AddressComponent) :
  rawResult.(address_components) = Some (pre ++ c :: post)%list ->
  includes "locality" c.(types) = true ->
  truthy_str c.(long_name) = true ->
  Forall (fun c' => includes "locality" c'.(types) = false) post ->
  processRawResult query result0 rawResult = Normal out ->
  out.(locality) = c.(long_name).
Proof.
  intros Hcomp Hc Hname Hpost H. unfold processRawResult in H. rewrite Hcomp in H.
  destruct (geometry rawResult) as [[[la|] [ln|]]|]; try discriminate.
  rewrite fold_left_app in H. cbn [fold_left] in H.
  match type of H with
  | context [fold_left walkComponent pre ?st] =>
    destruct (fold_left walkComponent pre st) as [r1 m1]
  end.
  unfold walkComponent at 2 in H. rewrite Hc in H.
  pose proof (walk_keeps_locality post (set_locality (long_name c) r1, m1) Hpost) as Hk.
  destruct (fold_left walkComponent post (set_locality (long_name c) r1, m1)) as [r2 m2].
  injection H as <-. rewrite assignAdminLevels_locality.
  cbn [fst] in Hk. rewrite Hk; destruct r1; [reflexivity|exact Hname].
Qed.

Lemma locality_component_wins_witness :
  exists out,
    processRawResult None (Some Sample.byLocality) Fixtures.rawBorough = Normal out /\
    out.(locality) = Some "New York".
Proof.
  eexists. split; [vm_compute; reflexivity|].
  apply (locality_component_wins None (Some Sample.byLocality) Fixtures.rawBorough _
           [mkComponent ["sublocality"; "political"] (Some "Brooklyn") (Some "Brooklyn")]
           [mkComponent ["sublocality_level_1"; "sublocality"; "political"] (Some "Bronx") (Some "Bronx")]
           (mkComponent ["locality"; "political"] (Some "New York") (Some "New York"))).
  - vm_compute; reflexivity.
  - vm_compute; reflexivity.
  - vm_compute; reflexivity.
  - repeat constructor.
  - vm_compute; reflexivity.
Defined.

(** X21: a query's locality is kept when the provider names none: when the
    record the results are laid over has a non-empty locality and no
    component has the type [locality], the locality of the normalized result
    is that of the query, and the components of type [sublocality] are
    ignored. *)
Theorem sublocality_never_replaces_locality (query : option EtomonLocation)
    (result0 : EtomonLocation) (rawResult : RawResult) (out : EtomonLocation)
    (components : list AddressComponent) :
  rawResult.(address_components) = Some components ->
  truthy_str result0.(locality) = true ->
  Forall (fun c => includes "locality" c.(types) = false) components ->
  processRawResult query (Some result0) rawResult = Normal out ->
  out.(locality) = result0.(locality).
Proof.
  intros Hcomp Hl Hall H. unfold processRawResult in H. rewrite Hcomp in H.
  destruct (geometry rawResult) as [[[la|] [ln|]]|]; try discriminate.
  match type of H with
  | context [fold_left walkComponent components ?st] =>
    assert (Hinit : (fst st).(locality) = result0.(locality));
    [|pose proof (walk_keeps_locality components st Hall) as Hk;
      destruct (fold_left walkComponent components st) as [r m]]
  end.
  { cbn [fst default]. destruct result0 as [? ? ? ? ? ? ? loc ? ? ? ? ? ? ? ? ?]. cbn.
    destruct loc, (truthy_str (formatted_address rawResult)),
      (truthy_str (place_id rawResult)); reflexivity. }
  injection H as <-. rewrite assignAdminLevels_locality.
  cbn [fst] in Hk, Hinit. rewrite Hinit in Hk. apply Hk. exact Hl.
Qed.

Lemma sublocality_never_replaces_locality_witness :
  exists out,
    processRawResult None (Some Sample.byLocality) Fixtures.rawDistrict = Normal out /\
    out.(locality) = Some "Paris".
Proof.
  eexists. split; [vm_compute; reflexivity|].
  apply (sublocality_never_replaces_locality None Sample.byLocality Fixtures.rawDistrict _
           [mkComponent ["sublocality"; "political"] (Some "Montmartre") (Some "Montmartre");
            mkComponent ["country"; "political"] (Some "France") (Some "FR")]).
  - vm_compute; reflexivity.
  - vm_compute; reflexivity.
  - repeat constructor.
  - vm_compute; reflexivity.
Defined.

Lemma walkComponent_no_level (st : EtomonLocation * AdminLevelMap) (c : AddressComponent) :
  Forall (fun t => index 0 "administrative_area_level" t = None) c.(types) ->
  snd (walkComponent st c) = snd st.
Proof.
  destruct st as [r m]. cbn [snd]. intros Hc. unfold walkComponent.
  assert (Hf : filter (fun t => bool_decide (is_Some (index 0 "administrative_area_level" t)))
                      (types c) = []).
  { induction Hc as [|t ts Ht _ IH]; [reflexivity|].
    rewrite filter_cons. rewrite Ht.
    destruct (decide _) as [Hd|Hd]; [|exact IH].
    apply bool_decide_unpack in Hd. destruct Hd; discriminate. }
  rewrite Hf.
  repeat match goal with
         | |- context [if ?x then _ else _] => destruct x
         end; reflexivity.
Qed.

Lemma walk_no_level (components : list AddressComponent) (st : EtomonLocation * AdminLevelMap) :
  Forall (fun c => Forall (fun t => index 0 "administrative_area_level" t = None) c.(types))
         components ->
  snd (fold_left walkComponent components st) = snd st.
Proof.
  intros Hall. revert st. induction Hall as [|c cs Hc _ IH]; intros st; simpl.
  - reflexivity.
  - rewrite IH. apply walkComponent_no_level. exact Hc.
Qed.

(** X22: the administrative levels of a normalized provider result never
    come from the query: when no component of the provider result has a type
    that contains [administrative_area_level], both levels of the record are
    [undefined], whatever the levels of the query the result is laid over. *)
Theorem administrative_levels_are_overwritten (query result0 : option EtomonLocation)
    (rawResult : RawResult) (out : EtomonLocation) (components : list AddressComponent) :
  rawResult.(address_components) = Some components ->
  Forall (fun c => Forall (fun t => index 0 "administrative_area_level" t = None) c.(types))
         components ->
  processRawResult query result0 rawResult = Normal out ->
  out.(administrativeLevel1) = None /\ out.(administrativeLevel2) = None.
Proof.
  intros Hcomp Hall H. unfold processRawResult in H. rewrite Hcomp in H.
  destruct (geometry rawResult) as [[[la|] [ln|]]|]; try discriminate.
  match type of H with
  | context [fold_left walkComponent components ?st] =>
    pose proof (walk_no_level components st Hall) as Hm;
    destruct (fold_left walkComponent components st) as [r m]
  end.
  cbn [snd] in Hm. subst m. injection H as <-.
  destruct r; split; reflexivity.
Qed.

Lemma administrative_levels_are_overwritten_witness :
  exists out,
    processRawResult None (Some Fixtures.byState) Sample.rawCountry = Normal out /\
    out.(administrativeLevel1) = None /\ out.(administrativeLevel2) = None.
Proof.
  eexists. split; [vm_compute; reflexivity|].
  apply (administrative_levels_are_overwritten None (Some Fixtures.byState) Sample.rawCountry _
           [mkComponent ["country"; "political"] (Some "United States") (Some "US")]).
  - vm_compute; reflexivity.
  - repeat constructor.
  - vm_compute; reflexivity.
Defined.

Lemma run_yieldRawResults_stop consume (w : World) (query result0 : option EtomonLocation)
    (pre post : list RawResult) (bad : RawResult) (recs : list EtomonLocation) (e : Err) :
  Forall2 (fun raw r => processRawResult query result0 raw = Normal r) pre recs ->
  processRawResult query result0 bad = Abrupt e ->
  run consume w (yieldRawResults query result0 (pre ++ bad :: post)%list)
  = mkRun (map EYield (map Some recs)) (Abrupt e) w.(store).
Proof.
  intros Hpre Hbad. induction Hpre as [|raw r pre' recs' Hr _ IH]; simpl.
  - rewrite Hbad. reflexivity.
  - rewrite Hr. cbn [run]. rewrite IH. reflexivity.
Qed.

(** X23: a provider result without coordinates ends the stream with an
    error: the records of the results before it are yielded, then
    [CouldNotResolveLocationError] with the canonical query is thrown, and
    the results after it are never looked at. *)
Theorem result_without_geometry_ends_stream (E : Externals) consume (w : World)
    (result0 : option EtomonLocation) (data : GoogleData)
    (pre post : list RawResult) (bad : RawResult) (recs : list EtomonLocation) :
  data.(results) = Some (pre ++ bad :: post)%list ->
  Forall2 (fun raw r => processRawResult (queryFromLocation E result0) result0 raw = Normal r)
          pre recs ->
  (forall la ln, bad.(geometry) <> Some (mkLatLng (Some la) (Some ln))) ->
  run consume w (processGoogleResponse E result0 (Some data))
  = mkRun (map EYield (map Some recs))
          (Abrupt (CouldNotResolveLocationError (queryFromLocation E result0))) w.(store).
Proof.
  intros Hres Hpre Hbad. unfold processGoogleResponse. rewrite Hres.
  apply run_yieldRawResults_stop; [exact Hpre|].
  unfold processRawResult.
  destruct (geometry bad) as [[[la|] [ln|]]|]; try reflexivity.
  exfalso. exact (Hbad la ln eq_refl).
Qed.

Lemma result_without_geometry_ends_stream_witness :
  exists r,
    run (fun y => y) Sample.world
        (processGoogleResponse Sample.externals (Some Sample.byCountry)
           (Some (Sample.ok [Sample.rawCountry; Fixtures.rawNowhere; Sample.rawPlace])))
    = mkRun [EYield (Some r)]
            (Abrupt (CouldNotResolveLocationError
                       (queryFromLocation Sample.externals (Some Sample.byCountry)))) ∅.
Proof.
  eexists.
  apply (result_without_geometry_ends_stream Sample.externals (fun y => y) Sample.world
           (Some Sample.byCountry)
           (Sample.ok [Sample.rawCountry; Fixtures.rawNowhere; Sample.rawPlace])
           [Sample.rawCountry] [Sample.rawPlace] Fixtures.rawNowhere [_]).
  - vm_compute; reflexivity.
  - constructor; [reflexivity|constructor].
  - intros la ln; discriminate.
Defined.

(** ** Failures of the provider and of the IP database *)

Lemma run_geocode_failure (E : Externals) consume (w : World) (q : EtomonLocation)
    (qs : list (string * option string)) (f : GoogleData -> Gen unit) :
  match w.(google) "geocode" qs with
  | Some d => d.(status) <> Some "OK"
  | None => True
  end ->
  exists cause,
    run consume w
      (try_catch (geocodeData <- makeGoogleRequest qs (Some q) "geocode" ;; f geocodeData)
                 (fun err => Throw (LocationQueryError (Some q) err)))
    = mkRun [EFetch "geocode" qs] (Abrupt (LocationQueryError (Some q) cause)) w.(store).
Proof.
  intros H. unfold makeGoogleRequest. cbn [bind try_catch run].
  destruct (google w "geocode" qs) as [d|].
  - rewrite bool_decide_eq_false_2 by exact H. eexists. reflexivity.
  - eexists. reflexivity.
Qed.

(** X24: a request the provider does not answer with the status [OK]
    makes the lookup strategy fail: for each of the seven facets that have a
    strategy, when no geocoding request succeeds, the strategy yields
    nothing and throws a [LocationQueryError] that carries the canonical
    query, after at most one request. *)
Theorem provider_failure_is_a_query_error (E : Externals) consume (w : World)
    (result : EtomonLocation) (p : LocationResolvePriorities) :
  p <> P_googlePlaceId ->
  p <> P_ipAddress ->
  (forall qs, match w.(google) "geocode" qs with
              | Some d => d.(status) <> Some "OK"
              | None => True
              end) ->
  exists t cause,
    run consume w (strategy E result p)
    = mkRun t (Abrupt (LocationQueryError (Some (canonicalQuery E result)) cause)) w.(store) /\
    (t = [] \/ exists qs, t = [EFetch "geocode" qs]).
Proof.
  intros Hp1 Hp2 Hfail.
  destruct p; try contradiction; cbn [strategy];
    unfold resolveLocationByPlaceId, resolveLocationByLatitudeAndLongitude,
      resolveLocationByAddress, resolveLocationByAddressComponents; cbv zeta.
  2: { destruct (coordinatesOf (canonicalQuery E result)) as [c|e].
       - edestruct (run_geocode_failure E consume w (canonicalQuery E result)) as [cause Hrun];
           [apply Hfail|].
         do 2 eexists. split; [exact Hrun|]. right. eexists. reflexivity.
       - do 2 eexists. split; [reflexivity|]. left. reflexivity. }
  all: edestruct (run_geocode_failure E consume w (canonicalQuery E result)) as [cause Hrun];
    [apply Hfail|];
    do 2 eexists; (split; [exact Hrun|]); right; eexists; reflexivity.
Qed.

Lemma provider_failure_is_a_query_error_witness :
  exists t cause,
    run (fun y => y) Fixtures.worldDenied (strategy Sample.externals Sample.byCountry P_country)
    = mkRun t (Abrupt (LocationQueryError
                         (Some (canonicalQuery Sample.externals Sample.byCountry)) cause)) ∅ /\
    (t = [] \/ exists qs, t = [EFetch "geocode" qs]).
Proof.
  apply (provider_failure_is_a_query_error Sample.externals (fun y => y) Fixtures.worldDenied
           Sample.byCountry P_country).
  - discriminate.
  - discriminate.
  - intros qs. vm_compute. discriminate.
Defined.

Lemma resolveLocationLoop_ip (E : Externals) (O : GeoResolverOptions)
    (query result : EtomonLocation) (rest : list LocationResolvePriorities) :
  branchGuard query result P_ipAddress = true ->
  resolveLocationLoop E O query (P_ipAddress :: rest) result
  = (result' <- resolveLocationByIpAddress E result ;;
     if negb (default false query.(resolveIpWithGeo))
     then Ret tt
     else resolveLocationLoop E O query rest result').
Proof.
  intros Hg. cbn [resolveLocationLoop].
  rewrite (branchGuard_priorityField _ _ _ Hg), Hg, andb_false_r. reflexivity.
Qed.

(** X25: an IP query that opts out of geocoding stops after the IP
    database: when the IP facet comes first, the query has a non-empty IP
    address known to the database and [resolveIpWithGeo] is [false], the
    cascade makes one IP lookup, yields the record built from it and ends,
    whatever the other fields of the query and the rest of the priority
    list. *)
Theorem ip_without_geocoding_ends_cascade (E : Externals) (O : GeoResolverOptions) consume
    (w : World) (input : EtomonLocation) (ip : string) (geoRes : GeoIpCity)
    (rest : list LocationResolvePriorities) :
  O.(resolvePriority) = P_ipAddress :: rest ->
  input.(ipAddress) = Some ip ->
  ip <> "" ->
  or_str input.(_id) input.(id) = input.(id) ->
  input.(resolveIpWithGeo) = Some false ->
  w.(geoip) ip = Some geoRes ->
  run consume w (resolveLocation E O (Some input))
  = mkRun [EGeoIp ip; EYield (Some (ipOutput E (canonicalQuery E input) input geoRes))]
          (Normal tt) w.(store).
Proof.
  intros Hprio Hip Hne Hid Hgeo Hdb.
  unfold resolveLocation. rewrite Hprio.
  rewrite resolveLocationLoop_ip.
  - unfold resolveLocationByIpAddress. cbv zeta.
    replace (ipAddress (canonicalQuery E input)) with (Some ip) by (symmetry; exact Hip).
    replace (resolveIpWithGeo (canonicalQuery E input)) with (Some false)
      by (cbn; rewrite Hgeo; reflexivity).
    cbn [bind try_catch run]. rewrite Hdb. reflexivity.
  - cbn [branchGuard]. 
    replace (ipAddress (canonicalQuery E input)) with (Some ip) by (symmetry; exact Hip).
    replace (id (canonicalQuery E input)) with (or_str (_id input) (id input)) by reflexivity.
    rewrite Hid, bool_decide_eq_true_2 by reflexivity.
    destruct ip; [contradiction|reflexivity].
Qed.

Lemma ip_without_geocoding_ends_cascade_witness :
  run (fun y => y) Sample.world
      (resolveLocation Sample.externals Sample.noCache (Some Fixtures.byIpOnly))
  = mkRun [ EGeoIp "8.8.8.8";
            EYield (Some (ipOutput Sample.externals
                            (canonicalQuery Sample.externals Fixtures.byIpOnly)
                            Fixtures.byIpOnly Sample.googleDns)) ]
          (Normal tt) ∅.
Proof.
  apply (ip_without_geocoding_ends_cascade Sample.externals Sample.noCache (fun y => y)
           Sample.world Fixtures.byIpOnly "8.8.8.8" Sample.googleDns
           [P_id; P_location; P_googlePlaceId; P_address; P_locality;
            P_administrativeLevel1; P_administrativeLevel2; P_country]).
  - reflexivity.
  - reflexivity.
  - discriminate.
  - reflexivity.
  - reflexivity.
  - reflexivity.
Defined.

(** X26: an IP address the database does not know makes the cascade fail:
    when the IP facet comes first and the lookup of the query's IP address
    fails, the cascade throws a [LocationQueryError] with the canonical
    query after that one lookup; nothing is yielded and no later facet is
    tried, even when the query has fields for them. *)
Theorem unknown_ip_fails_cascade (E : Externals) (O : GeoResolverOptions) consume
    (w : World) (input : EtomonLocation) (ip : string)
    (rest : list LocationResolvePriorities) :
  O.(resolvePriority) = P_ipAddress :: rest ->
  input.(ipAddress) = Some ip ->
  ip <> "" ->
  or_str input.(_id) input.(id) = input.(id) ->
  w.(geoip) ip = None ->
  run consume w (resolveLocation E O (Some input))
  = mkRun [EGeoIp ip]
          (Abrupt (LocationQueryError (Some (canonicalQuery E input)) GeoIpError)) w.(store).
Proof.
  intros Hprio Hip Hne Hid Hdb.
  unfold resolveLocation. rewrite Hprio.
  rewrite resolveLocationLoop_ip.
  - unfold resolveLocationByIpAddress. cbv zeta.
    replace (ipAddress (canonicalQuery E input)) with (Some ip) by (symmetry; exact Hip).
    cbn [bind try_catch run]. rewrite Hdb. reflexivity.
  - cbn [branchGuard]. 
    replace (ipAddress (canonicalQuery E input)) with (Some ip) by (symmetry; exact Hip).
    replace (id (canonicalQuery E input)) with (or_str (_id input) (id input)) by reflexivity.
    rewrite Hid, bool_decide_eq_true_2 by reflexivity.
    destruct ip; [contradiction|reflexivity].
Qed.

Lemma unknown_ip_fails_cascade_witness :
  run (fun y => y) Sample.world
      (resolveLocation Sample.externals Sample.noCache (Some Fixtures.byUnknownIp))
  = mkRun [EGeoIp "10.0.0.1"]
          (Abrupt (LocationQueryError
                     (Some (canonicalQuery Sample.externals Fixtures.byUnknownIp)) GeoIpError)) ∅.
Proof.
  apply (unknown_ip_fails_cascade Sample.externals Sample.noCache (fun y => y)
           Sample.world Fixtures.byUnknownIp "10.0.0.1"
           [P_id; P_location; P_googlePlaceId; P_address; P_locality;
            P_administrativeLevel1; P_administrativeLevel2; P_country]).
  - reflexivity.
  - reflexivity.
  - discriminate.
  - reflexivity.
  - reflexivity.
Defined.

(** ** Enrichment *)

(** X27: when [getCountryInfo] succeeds.  The call returns without
    throwing exactly when the record has a [location], its country is in
    the country table and every language of that country is in the language
    table; it then sets [languages] to the names of these languages and
    [phoneCode] to the calling code, fills an empty [id] from the canonical
    query and changes nothing else.  When it throws, the error is a
    [LocationQueryError] with the canonical query, and [languages] and
    [phoneCode] are as they were. *)
Theorem getCountryInfo_succeeds_iff (E : Externals) (result : EtomonLocation) :
  (snd (getCountryInfo E result) = None <->
   is_Some result.(location) /\
   exists c info names,
     result.(country) = Some c /\ E.(countryData) c = Some info /\
     mapM E.(languageData) info.(clanguages) = Some names) /\
  (forall c info names,
     is_Some result.(location) ->
     result.(country) = Some c -> E.(countryData) c = Some info ->
     mapM E.(languageData) info.(clanguages) = Some names ->
     getCountryInfo E result
     = (set_phoneCode info.(cphone)
          (set_languages (Some (map Some names))
             (set_id (or_str result.(id) (or_str result.(_id) result.(id))) result)), None)) /\
  (forall e,
     snd (getCountryInfo E result) = Some e ->
     (exists cause, e = LocationQueryError (Some (canonicalQuery E result)) cause) /\
     (fst (getCountryInfo E result)).(languages) = result.(languages) /\
     (fst (getCountryInfo E result)).(phoneCode) = result.(phoneCode)).
Proof.
  unfold getCountryInfo. cbv zeta.
  change (country (canonicalQuery E result)) with (country result).
  change (id (canonicalQuery E result)) with (or_str (_id result) (id result)).
  split; [|split].
  - split.
    + destruct (location result) as [g|]; [|discriminate].
      destruct (country result) as [c|]; [|discriminate].
      destruct (countryData E c) as [info|] eqn:Hinfo; [|discriminate].
      destruct (mapM (languageData E) (clanguages info)) as [names|] eqn:Hnames;
        [|discriminate].
      intros _. split; [eexists; reflexivity|]. exists c, info, names. auto.
    + intros [[g Hg] (c & info & names & Hc & Hinfo & Hnames)].
      rewrite Hg, Hc, Hinfo, Hnames. reflexivity.
  - intros c info names [g Hg] Hc Hinfo Hnames.
    rewrite Hg, Hc, Hinfo, Hnames. reflexivity.
  - intros e.
    destruct (location result) as [g|].
    + destruct (country result) as [c|].
      * destruct (countryData E c) as [info|].
        -- destruct (mapM (languageData E) (clanguages info)) as [names|].
           ++ discriminate.
           ++ intros [= <-]. split; [eexists; reflexivity|]. destruct result; auto.
        -- intros [= <-]. split; [eexists; reflexivity|]. destruct result; auto.
      * intros [= <-]. split; [eexists; reflexivity|]. destruct result; auto.
    + intros [= <-]. split; [eexists; reflexivity|]. auto.
Qed.


(** ** Client *)

Lemma ensureLocationLoop_offline {St : Type}
    (server : St -> EtomonLocation -> St * Completion (option EtomonLocation)) (s : St)
    (inputs : list EnsureInput) (results : list EtomonLocation) :
  Forall (fun i => forall p, i <> InString p) inputs ->
  exists out,
    run_rpc server s (ensureLocationLoop inputs false results)
    = mkRpcRun [] (Normal (results ++ out)%list) s /\
    (length out <= length inputs)%nat /\
    Forall (fun l => is_Some l.(id) \/ is_Some l.(_id)) out.
Proof.
  intros Hall. revert results.
  induction Hall as [|input rest Hin _ IH]; intros results.
  - exists []. rewrite app_nil_r. repeat split; [simpl; lia|constructor].
  - cbn [ensureLocationLoop]. cbv zeta.
    destruct input as [p|[p|] description l|].
    + exfalso. exact (Hin p eq_refl).
    + destruct (IH (results ++ [set__id (Some p) (set_address description
                                    (set_id (Some p) emptyLocation))])%list)
        as (out & Hrun & Hlen & Hids).
      eexists (_ :: out). rewrite Hrun, <- app_assoc. repeat split.
      * simpl; lia.
      * constructor; [|exact Hids]. left. eexists; reflexivity.
    + destruct (bool_decide (is_Some (id l)) || bool_decide (is_Some (_id l))) eqn:Hid.
      * destruct (IH (results ++ [l])%list) as (out & Hrun & Hlen & Hids).
        exists (l :: out). rewrite Hrun, <- app_assoc. repeat split.
        -- simpl; lia.
        -- constructor; [|exact Hids].
           apply orb_true_iff in Hid as [Hid|Hid]; apply bool_decide_eq_true in Hid; auto.
      * destruct (IH results) as (out & Hrun & Hlen & Hids).
        exists out. repeat split; [exact Hrun|simpl; lia|exact Hids].
    + destruct (IH results) as (out & Hrun & Hlen & Hids).
      exists out. repeat split; [exact Hrun|simpl; lia|exact Hids].
Qed.

(** X29: without [resolveResults] and without strings among the inputs,
    [ensureLocation] works offline: the server is not called, the call
    returns, at most one record is returned per input, and every record
    returned has an [id] or an [_id] property (inputs without either, and
    inputs that are not objects, are dropped). *)
Theorem ensureLocation_offline {St : Type}
    (server : St -> EtomonLocation -> St * Completion (option EtomonLocation)) (s : St)
    (inputs : list EnsureInput) :
  Forall (fun i => forall p, i <> InString p) inputs ->
  exists out,
    run_rpc server s (ensureLocation inputs false) = mkRpcRun [] (Normal out) s /\
    (length out <= length inputs)%nat /\
    Forall (fun l => is_Some l.(id) \/ is_Some l.(_id)) out.
Proof.
  intros Hall. exact (ensureLocationLoop_offline server s inputs [] Hall).
Qed.

Lemma ensureLocation_offline_witness :
  exists out,
    run_rpc (rpcServer Sample.externals Sample.noCache Sample.world) ∅
            (ensureLocation [InObject (Some "X") (Some "New York, NY, USA") emptyLocation;
                             InObject None None Sample.paris; InOther;
                             InObject None None Sample.byCountry] false)
    = mkRpcRun [] (Normal out) ∅ /\
    (length out <= 4)%nat /\
    Forall (fun l => is_Some l.(id) \/ is_Some l.(_id)) out.
Proof.
  apply (ensureLocation_offline (rpcServer Sample.externals Sample.noCache Sample.world) ∅
           [InObject (Some "X") (Some "New York, NY, USA") emptyLocation;
            InObject None None Sample.paris; InOther; InObject None None Sample.byCountry]).
  repeat constructor; discriminate.
Defined.

(** X30: what the client asks the server.  Whatever the inputs, the flag
    and the answers of the server, every query [ensureLocation] sends holds
    an [id] and nothing else, at most one query is sent per input, and a
    string that comes first among the inputs is always sent, also without
    [resolveResults]. *)
Theorem ensureLocation_queries {St : Type}
    (server : St -> EtomonLocation -> St * Completion (option EtomonLocation)) (s : St)
    (inputs : list EnsureInput) (resolveResults : bool) :
  let r := run_rpc server s (ensureLocation inputs resolveResults) in
  Forall (fun q => exists p, q = set_id (Some p) emptyLocation) r.(calls) /\
  (length r.(calls) <= length inputs)%nat /\
  (forall p rest, inputs = InString p :: rest ->
                  exists more, r.(calls) = set_id (Some p) emptyLocation :: more).
Proof.
  cbv zeta. unfold ensureLocation. generalize (@nil EtomonLocation) as results.
  assert (Hgen : forall inputs results s,
    Forall (fun q => exists p, q = set_id (Some p) emptyLocation)
      (run_rpc server s (ensureLocationLoop inputs resolveResults results)).(calls) /\
    (length (run_rpc server s (ensureLocationLoop inputs resolveResults results)).(calls)
     <= length inputs)%nat).
  { clear. intros inputs. induction inputs as [|input rest IH]; intros results s.
    - simpl. split; [constructor|lia].
    - assert (Hcall : forall p next_results,
        Forall (fun q => exists p, q = set_id (Some p) emptyLocation)
          (run_rpc server s (RpcResolveOne (set_id (Some p) emptyLocation)
             (fun answer => ensureLocationLoop rest resolveResults (next_results answer)))).(calls) /\
        (length (run_rpc server s (RpcResolveOne (set_id (Some p) emptyLocation)
             (fun answer => ensureLocationLoop rest resolveResults (next_results answer)))).(calls)
         <= S (length rest))%nat).
      { intros p next_results. cbn [run_rpc].
        destruct (server s (set_id (Some p) emptyLocation)) as [s' [answer|e]]; cbn [calls].
        - destruct (IH (next_results answer) s') as [Hq Hl]. split.
          + constructor; [eexists; reflexivity|exact Hq].
          + simpl; lia.
        - split; [repeat constructor; eexists; reflexivity|simpl; lia]. }
      cbn [ensureLocationLoop]. cbv zeta. cbn [length].
      destruct input as [p|[p|] description l|].
      + apply Hcall.
      + destruct resolveResults.
        * apply Hcall.
        * destruct (IH (results ++ [set__id (Some p) (set_address description
                                      (set_id (Some p) emptyLocation))])%list s) as [Hq Hl].
          split; [exact Hq|lia].
      + destruct (bool_decide (is_Some (id l)) || bool_decide (is_Some (_id l))).
        * destruct resolveResults.
          -- destruct (truthy_str (id l)) eqn:Ht.
             ++ destruct (id l) as [i|]; [|discriminate]. apply Hcall.
             ++ destruct (truthy_str (_id l)) eqn:Ht'.
                ** destruct (_id l) as [i'|]; [|discriminate]. apply Hcall.
                ** destruct (IH (results ++ [l])%list s) as [Hq Hl].
                   split; [exact Hq|lia].
          -- destruct (IH (results ++ [l])%list s) as [Hq Hl]. split; [exact Hq|lia].
        * destruct (IH results s) as [Hq Hl]. split; [exact Hq|lia].
      + destruct (IH results s) as [Hq Hl]. split; [exact Hq|lia]. }
  intros results. destruct (Hgen inputs results s) as [Hq Hl].
  split; [exact Hq|]. split; [exact Hl|].
  intros p rest ->. cbn [ensureLocationLoop run_rpc]. cbv zeta.
  destruct (server s (set_id (Some p) emptyLocation)) as [s' [answer|e]]; cbn [calls];
    eexists; reflexivity.
Qed.
